(** * Local math agent: the tool layer of [main.py]

    A shallow embedding of the response parser, the three tool handlers
    ([calculate], [convert], [run_algorithm]) and the tag dispatch of the
    interactive loop, together with the properties the specification states
    about them.

    Python values are the values [json.loads] can produce.  Printing is a
    list of printed lines, exceptions are explicit outcomes.  The libraries
    the program calls ([json.loads], [simpleeval.simple_eval], the callables
    stored in [ALGORITHM_TOOLS], [repr] of floats and containers) are
    parameters of the development: the handlers are modelled for every
    behaviour of these libraries.

    Printing and [str] are modelled where they succeed: the standard output
    takes every line, and an integer is converted to its digits whatever
    their number, as the interpreter does when the limit on that conversion
    is turned off.  The predicate [printable] delimits the values on which
    this is what every interpreter does. *)

From Stdlib Require Import ZArith String Ascii List Bool Lia Floats.
From Stdlib Require DecimalString.
Import ListNotations.

#[local] Set Warnings "-inexact-float,-register-all".
#[local] Open Scope string_scope.

(** ** Python values and exceptions *)

(** The values a decoded model reply is made of.  A [dict] keeps its
    insertion order and has string keys, as every decoded JSON object.  A
    string is the UTF-8 encoding of a Python string.  A complex number,
    which no JSON text decodes to, is not among these values: a statement
    about a value that [simple_eval] or a function of the registry returns
    is about a value of this type. *)
Inductive PyVal : Type :=
| PNone
| PBool (b : bool)
| PInt (z : Z)
| PFloat (f : float)
| PStr (s : string)
| PList (l : list PyVal)
| PDict (d : list (string * PyVal)).

(** Exception classes that the handlers or the libraries raise.  All of
    them derive from [Exception]; [InvalidExpression] stands for the
    simpleeval class and its subclasses, [OtherException] for any other
    subclass of [Exception]. *)
Inductive ExnClass : Type :=
| KeyError
| TypeError
| AttributeError
| ValueError
| IndexError
| ZeroDivisionError
| OverflowError
| JSONDecodeError
| InvalidExpression
| OtherException.

(** An exception object: its class and [str(e)]. *)
Record Exn : Type := mkExn { exn_class : ExnClass; exn_msg : string }.

Inductive Outcome (A : Type) : Type :=
| Return (a : A)
| Raise (e : Exn).
Arguments Return {A} a.
Arguments Raise {A} e.

(** [raises c o]: the outcome is an exception of class [c]. *)
Definition raises {A} (c : ExnClass) (o : Outcome A) : Prop :=
  match o with
  | Raise e => exn_class e = c
  | Return _ => False
  end.

(** ** Programs that print

    A program yields the lines it printed and its outcome.  [print] itself
    never fails here: the standard output is open and takes the encoding of
    every line. *)
Definition M (A : Type) : Type := (list string * Outcome A)%type.

Definition ret {A} (a : A) : M A := ([], Return a).
Definition lift {A} (o : Outcome A) : M A := ([], o).
Definition print (s : string) : M unit := ([s], Return tt).

Definition bind {A B} (m : M A) (k : A -> M B) : M B :=
  match m with
  | (out, Return a) => let (out', o) := k a in ((out ++ out')%list, o)
  | (out, Raise e) => (out, Raise e)
  end.

(** [try m handler]: a [try] block whose [except] clauses are [handler];
    [handler e = None] when no clause matches [e], and the exception
    propagates. *)
Definition try {A} (m : M A) (handler : Exn -> option (M A)) : M A :=
  match m with
  | (out, Return a) => (out, Return a)
  | (out, Raise e) =>
      match handler e with
      | Some h => let (out', o) := h in ((out ++ out')%list, o)
      | None => (out, Raise e)
      end
  end.

Declare Scope py_scope.
Delimit Scope py_scope with py.
Notation "x <- m ;; k" := (bind m (fun x => k))
  (at level 61, m at next level, right associativity) : py_scope.
Notation "m ;;; k" := (bind m (fun _ => k))
  (at level 61, right associativity) : py_scope.
#[local] Open Scope py_scope.

Definition printed {A} (m : M A) : list string := fst m.
Definition outcome {A} (m : M A) : Outcome A := snd m.

(** ** Strings *)

Definition lower_ascii (c : ascii) : ascii :=
  let n := nat_of_ascii c in
  if andb (Nat.leb 65 n) (Nat.leb n 90) then ascii_of_nat (n + 32) else c.

(** [str.lower()].  Strings are byte sequences here and only the ASCII
    letters are folded; a character outside ASCII never folds to one of the
    letters of the three tags the result is compared with. *)
Fixpoint str_lower (s : string) : string :=
  match s with
  | EmptyString => EmptyString
  | String c r => String (lower_ascii c) (str_lower r)
  end.

Fixpoint join (sep : string) (l : list string) : string :=
  match l with
  | [] => EmptyString
  | [x] => x
  | x :: r => x ++ sep ++ join sep r
  end.

Definition dquote : string := String (ascii_of_nat 34) EmptyString.

(** [str(n)] for an integer: its decimal digits.  Since version 3.11 the
    interpreter refuses the conversion with [ValueError] when the digits are
    more than a limit, 4300 unless configured otherwise, which can be turned
    off and cannot be set below 640.  [str_int] is the conversion with the
    limit off, [str_int_limited] the conversion under a limit, and
    [printable] holds of the integers on which no limit is felt. *)
Definition str_int (z : Z) : string :=
  DecimalString.NilZero.string_of_int (Z.to_int z).

(** [str(n)] in an interpreter that limits the conversion to [limit]
    digits; [limit] is 0 when the limit is off. *)
Definition str_int_limited (limit : Z) (z : Z) : Outcome string :=
  if (0 <? limit)%Z && (10 ^ limit <=? Z.abs z)%Z
  then
    Raise (mkExn ValueError
             ("Exceeds the limit (" ++ str_int limit
                ++ " digits) for integer string conversion; "
                ++ "use sys.set_int_max_str_digits() to increase the limit"))
  else Return (str_int z).

(** ** Dictionaries and subscripts *)

Fixpoint dict_get (d : list (string * PyVal)) (k : string) : option PyVal :=
  match d with
  | [] => None
  | (k', v) :: r => if String.eqb k' k then Some v else dict_get r k
  end.

Definition type_name (v : PyVal) : string :=
  match v with
  | PNone => "NoneType"
  | PBool _ => "bool"
  | PInt _ => "int"
  | PFloat _ => "float"
  | PStr _ => "str"
  | PList _ => "list"
  | PDict _ => "dict"
  end.

(** [v[k]] for a string key [k]. *)
Definition getitem (v : PyVal) (k : string) : Outcome PyVal :=
  match v with
  | PDict d =>
      match dict_get d k with
      | Some x => Return x
      | None => Raise (mkExn KeyError ("'" ++ k ++ "'"))
      end
  | PList _ =>
      Raise (mkExn TypeError "list indices must be integers or slices, not str")
  | PStr _ =>
      Raise (mkExn TypeError "string indices must be integers, not 'str'")
  | _ =>
      Raise (mkExn TypeError ("'" ++ type_name v ++ "' object is not subscriptable"))
  end.

(** [v == s] for a string literal [s]. *)
Definition eq_str (v : PyVal) (s : string) : bool :=
  match v with
  | PStr t => String.eqb t s
  | _ => false
  end.

(** [v.lower()]. *)
Definition lower (v : PyVal) : Outcome PyVal :=
  match v with
  | PStr s => Return (PStr (str_lower s))
  | _ =>
      Raise (mkExn AttributeError
               ("'" ++ type_name v ++ "' object has no attribute 'lower'"))
  end.

(** ** Numbers

    Python integers are unbounded ([Z]); Python floats are IEEE binary64
    with round to nearest even, which is what the primitive floats are. *)

Definition obind {A B} (o : Outcome A) (k : A -> Outcome B) : Outcome B :=
  match o with
  | Return a => k a
  | Raise e => Raise e
  end.
Notation "x <~ o ;; k" := (obind o (fun x => k))
  (at level 61, o at next level, right associativity) : py_scope.

(** [float(z)]: the float nearest to [z], ties to even.  The largest
    float is [2^1024 - 2^971]; an integer from [2^1024 - 2^970] on, half
    way to [2^1024], rounds past it and the conversion raises
    [OverflowError]. *)
Definition float_of_int (z : Z) : Outcome float :=
  if (2 ^ 1024 - 2 ^ 970 <=? Z.abs z)%Z
  then Raise (mkExn OverflowError "int too large to convert to float")
  else Return (SF2Prim (binary_normalize prec emax z 0 false)).

(** [a / b] on integers: the correctly rounded quotient.  When both
    integers have 53 bits at most they are floats as they are, and the
    quotient is the division of these floats; otherwise the quotient is
    computed to at least 55 bits with a sticky last bit, then rounded. *)
Definition int_truediv (a b : Z) : Outcome float :=
  if (b =? 0)%Z then Raise (mkExn ZeroDivisionError "division by zero")
  else if (a =? 0)%Z then Return (if (b <? 0)%Z then neg_zero else zero)
  else if (Z.abs a <? 2 ^ 53)%Z && (Z.abs b <? 2 ^ 53)%Z then
    Return (SF2Prim (binary_normalize prec emax a 0 false)
            / SF2Prim (binary_normalize prec emax b 0 false))%float
  else
    let na := Z.abs a in
    let nb := Z.abs b in
    let k := Z.max 0 (Z.log2 nb + 56 - Z.log2 na) in
    let n := (na * 2 ^ k)%Z in
    let sticky := if (n mod nb =? 0)%Z then 0%Z else 1%Z in
    let m := (2 * (n / nb) + sticky)%Z in
    let sm := if xorb (a <? 0)%Z (b <? 0)%Z then (- m)%Z else m in
    match binary_normalize prec emax sm (- (k + 1)) false with
    | S754_infinity _ =>
        Raise (mkExn OverflowError "integer division result too large for a float")
    | sf => Return (SF2Prim sf)
    end.

Inductive Num : Type :=
| NInt (z : Z)
| NFloat (f : float).

(** The numeric reading of a value; [bool] is a subclass of [int]. *)
Definition as_num (v : PyVal) : option Num :=
  match v with
  | PBool b => Some (NInt (if b then 1 else 0))
  | PInt z => Some (NInt z)
  | PFloat f => Some (NFloat f)
  | _ => None
  end.

Definition to_float (n : Num) : Outcome float :=
  match n with
  | NInt z => float_of_int z
  | NFloat f => Return f
  end.

Definition unsupported {A} (op : string) (a b : PyVal) : Outcome A :=
  Raise (mkExn TypeError
           ("unsupported operand type(s) for " ++ op ++ ": '" ++ type_name a
              ++ "' and '" ++ type_name b ++ "'")).

Fixpoint str_repeat (n : nat) (s : string) : string :=
  match n with
  | O => EmptyString
  | S k => s ++ str_repeat k s
  end.

Fixpoint list_repeat {A} (n : nat) (l : list A) : list A :=
  match n with
  | O => []
  | S k => (l ++ list_repeat k l)%list
  end.

(** [seq * n]: repetition of a string or a list; the count has to fit a
    machine index. *)
Definition seq_repeat (a : PyVal) (n : Z) : Outcome PyVal :=
  let too_many {A} : Outcome A :=
    Raise (mkExn OverflowError "cannot fit 'int' into an index-sized integer") in
  match a with
  | PStr s =>
      if (2 ^ 63 <=? n)%Z then too_many
      else Return (PStr (str_repeat (Z.to_nat n) s))
  | PList l =>
      if (2 ^ 63 <=? n)%Z then too_many
      else Return (PList (list_repeat (Z.to_nat n) l))
  | _ => unsupported "*" a (PInt n)
  end.

(** [a * b]. *)
Definition mul (a b : PyVal) : Outcome PyVal :=
  match as_num a, as_num b with
  | Some (NInt x), Some (NInt y) => Return (PInt (x * y))
  | Some x, Some y =>
      fx <~ to_float x ;; fy <~ to_float y ;; Return (PFloat (fx * fy))
  | None, Some (NInt n) => seq_repeat a n
  | Some (NInt n), None => seq_repeat b n
  | None, Some (NFloat _) | Some (NFloat _), None =>
      match a, b with
      | PStr _, _ | PList _, _ | _, PStr _ | _, PList _ =>
          Raise (mkExn TypeError "can't multiply sequence by non-int of type 'float'")
      | _, _ => unsupported "*" a b
      end
  | None, None => unsupported "*" a b
  end.

(** [a + b]. *)
Definition add (a b : PyVal) : Outcome PyVal :=
  match as_num a, as_num b with
  | Some (NInt x), Some (NInt y) => Return (PInt (x + y))
  | Some x, Some y =>
      fx <~ to_float x ;; fy <~ to_float y ;; Return (PFloat (fx + fy))
  | _, _ =>
      match a, b with
      | PStr s, PStr t => Return (PStr (s ++ t))
      | PList l, PList r => Return (PList (l ++ r)%list)
      | PStr _, _ =>
          Raise (mkExn TypeError
                   ("can only concatenate str (not " ++ dquote ++ type_name b
                      ++ dquote ++ ") to str"))
      | PList _, _ =>
          Raise (mkExn TypeError
                   ("can only concatenate list (not " ++ dquote ++ type_name b
                      ++ dquote ++ ") to list"))
      | _, _ => unsupported "+" a b
      end
  end.

(** [a - b]. *)
Definition sub (a b : PyVal) : Outcome PyVal :=
  match as_num a, as_num b with
  | Some (NInt x), Some (NInt y) => Return (PInt (x - y))
  | Some x, Some y =>
      fx <~ to_float x ;; fy <~ to_float y ;; Return (PFloat (fx - fy))
  | _, _ => unsupported "-" a b
  end.

(** [a / b]. *)
Definition truediv (a b : PyVal) : Outcome PyVal :=
  match as_num a, as_num b with
  | Some (NInt x), Some (NInt y) => f <~ int_truediv x y ;; Return (PFloat f)
  | Some x, Some y =>
      fx <~ to_float x ;; fy <~ to_float y ;;
      if (fy =? 0)%float
      then Raise (mkExn ZeroDivisionError "float division by zero")
      else Return (PFloat (fx / fy))
  | _, _ => unsupported "/" a b
  end.

(** ** Formatting *)

Definition digit (n : Z) : ascii := ascii_of_nat (48 + Z.to_nat n).

(** [n / d] rounded to the nearest integer, ties to even ([0 <= n], [0 < d]). *)
Definition round_half_even (n d : Z) : Z :=
  let q := (n / d)%Z in
  let r := (n mod d)%Z in
  if (2 * r <? d)%Z then q
  else if (d <? 2 * r)%Z then (q + 1)%Z
  else if Z.even q then q else (q + 1)%Z.

(** The number of hundredths nearest to [m * 2^e]. *)
Definition hundredths (m : positive) (e : Z) : Z :=
  if (0 <=? e)%Z then (100 * Zpos m * 2 ^ e)%Z
  else round_half_even (100 * Zpos m) (2 ^ (- e)).

(** [q] hundredths in fixed notation with two decimals. *)
Definition fixed2 (neg : bool) (q : Z) : string :=
  (if neg then "-" else EmptyString)
    ++ str_int (q / 100) ++ "."
    ++ String (digit (q mod 100 / 10)) (String (digit (q mod 10)) EmptyString).

(** [format(f, '.2f')] for a float: the exact binary value, correctly
    rounded to two decimals. *)
Definition format_2f_float (f : float) : string :=
  match Prim2SF f with
  | S754_nan => "nan"
  | S754_infinity s => if s then "-inf" else "inf"
  | S754_zero s => fixed2 s 0
  | S754_finite s m e => fixed2 s (hundredths m e)
  end.

(** [f'{v:.2f}']. *)
Definition format_2f (v : PyVal) : Outcome string :=
  match v with
  | PFloat f => Return (format_2f_float f)
  | PInt z => f <~ float_of_int z ;; Return (format_2f_float f)
  | PBool b => Return (format_2f_float (if b then 1 else 0)%float)
  | PStr _ =>
      Raise (mkExn ValueError "Unknown format code 'f' for object of type 'str'")
  | _ =>
      Raise (mkExn TypeError
               ("unsupported format string passed to " ++ type_name v
                  ++ ".__format__"))
  end.

(** ** Sequences *)

(** A byte that continues a UTF-8 character. *)
Definition is_continuation (c : ascii) : bool :=
  let n := nat_of_ascii c in andb (Nat.leb 128 n) (Nat.ltb n 192).

(** The characters of a string, each as a string of its own. *)
Fixpoint chars (s : string) : list string :=
  match s with
  | EmptyString => []
  | String c r =>
      match chars r with
      | x :: l =>
          match r with
          | String c' _ =>
              if is_continuation c' then String c x :: l
              else String c EmptyString :: x :: l
          | EmptyString => String c EmptyString :: x :: l
          end
      | [] => [String c EmptyString]
      end
  end.

(** [list(v)]: what iterating over [v] yields. *)
Definition iterate (v : PyVal) : Outcome (list PyVal) :=
  match v with
  | PList l => Return l
  | PStr s => Return (map PStr (chars s))
  | PDict d => Return (map (fun kv => PStr (fst kv)) d)
  | _ =>
      Raise (mkExn TypeError ("'" ++ type_name v ++ "' object is not iterable"))
  end.

(** [len(v)]. *)
Definition len (v : PyVal) : Outcome Z :=
  match v with
  | PList l => Return (Z.of_nat (length l))
  | PStr s => Return (Z.of_nat (length (chars s)))
  | PDict d => Return (Z.of_nat (length d))
  | _ =>
      Raise (mkExn TypeError ("object of type '" ++ type_name v ++ "' has no len()"))
  end.

(** ** The operations of [str] that the arity computation uses *)

(** [s.split(sep)] for a separator of one character. *)
Fixpoint split (sep : ascii) (s : string) : list string :=
  match s with
  | EmptyString => [EmptyString]
  | String c r =>
      if Ascii.eqb c sep then EmptyString :: split sep r
      else
        match split sep r with
        | x :: l => String c x :: l
        | [] => [String c EmptyString]
        end
  end.

(** [l[1]]. *)
Definition index1 (l : list string) : Outcome string :=
  match l with
  | _ :: x :: _ => Return x
  | _ => Raise (mkExn IndexError "list index out of range")
  end.

(** [s.rstrip(c)] for a set of one character. *)
Fixpoint rstrip (c : ascii) (s : string) : string :=
  match s with
  | EmptyString => EmptyString
  | String a r =>
      match rstrip c r with
      | EmptyString => if Ascii.eqb a c then EmptyString else String a EmptyString
      | r' => String a r'
      end
  end.

(** [s.count(c)] for one character. *)
Fixpoint count (c : ascii) (s : string) : Z :=
  match s with
  | EmptyString => 0
  | String a r => ((if Ascii.eqb a c then 1 else 0) + count c r)%Z
  end.

(** ** The operation registry *)

(** The function objects stored in [ALGORITHM_TOOLS]: functions of the
    [math] module and the lambdas written in the table. *)
Inductive Callable : Type :=
| math_gcd
| math_lcm
| math_factorial
| lambda_is_prime
| lambda_nth_root
| math_log
| math_log2
| math_log10
| lambda_fibonacci
| lambda_circle_area
| math_hypot
| lambda_sin
| lambda_cos
| lambda_tan.

(** A registry: operation name to (function, description). *)
Definition Registry : Type := list (string * (Callable * string)).

Definition ALGORITHM_TOOLS : Registry :=
  [ ("gcd", (math_gcd, "inputs: [a, b]"));
    ("lcm", (math_lcm, "inputs: [a, b]"));
    ("factorial", (math_factorial, "inputs: [n]"));
    ("is_prime", (lambda_is_prime, "inputs: [n]"));
    ("nth_root", (lambda_nth_root, "inputs: [n, root]"));
    ("log", (math_log, "inputs: [n, base]"));
    ("log2", (math_log2, "inputs: [n]"));
    ("log10", (math_log10, "inputs: [n]"));
    ("fibonacci", (lambda_fibonacci, "inputs: [n]"));
    ("circle_area", (lambda_circle_area, "inputs: [radius]"));
    ("hypotenuse", (math_hypot, "inputs: [a, b]"));
    ("sin", (lambda_sin, "inputs: [degrees]"));
    ("cos", (lambda_cos, "inputs: [degrees]"));
    ("tan", (lambda_tan, "inputs: [degrees]")) ].

Fixpoint registry_get (tools : Registry) (k : string) : option (Callable * string) :=
  match tools with
  | [] => None
  | (k', e) :: r => if String.eqb k k' then Some e else registry_get r k
  end.

(** [k in tools]: lists and dicts are not hashable; a key that is not a
    string equals none of the names. *)
Definition registry_contains (tools : Registry) (k : PyVal) : Outcome bool :=
  match k with
  | PStr s =>
      Return (match registry_get tools s with Some _ => true | None => false end)
  | PList _ | PDict _ =>
      Raise (mkExn TypeError ("unhashable type: '" ++ type_name k ++ "'"))
  | _ => Return false
  end.

(** [tools[k]]. *)
Definition registry_getitem (tools : Registry) (k : PyVal)
  : Outcome (Callable * string) :=
  match k with
  | PStr s =>
      match registry_get tools s with
      | Some e => Return e
      | None => Raise (mkExn KeyError ("'" ++ s ++ "'"))
      end
  | PList _ | PDict _ =>
      Raise (mkExn TypeError ("unhashable type: '" ++ type_name k ++ "'"))
  | _ => Raise (mkExn KeyError (type_name k))
  end.

(** [int(desc.split('[')[1].rstrip(']').count(',')) + 1]. *)
Definition expected_inputs (desc : string) : Outcome Z :=
  piece <~ index1 (split "[" desc) ;;
  Return (count "," (rstrip "]" piece) + 1)%Z.

(** ** The handlers and the dispatch *)

Definition is_none (v : PyVal) : bool :=
  match v with
  | PNone => true
  | _ => false
  end.

(** The truth value of a handler result in [if result:]. *)
Definition truthy (v : PyVal) : bool :=
  match v with
  | PNone => false
  | PBool b => b
  | PInt z => negb (z =? 0)%Z
  | PFloat f => negb (f =? 0)%float
  | PStr s => negb (String.eqb s EmptyString)
  | PList l => match l with [] => false | _ => true end
  | PDict d => match d with [] => false | _ => true end
  end.

(** ** What every interpreter prints *)

Definition between (lo hi : nat) (c : ascii) : bool :=
  let n := nat_of_ascii c in Nat.leb lo n && Nat.leb n hi.

(** The bytes are well-formed UTF-8, the encoding of a text of Unicode
    characters none of which is a surrogate: the standard output takes such
    a text. *)
Fixpoint utf8 (s : string) : bool :=
  match s with
  | EmptyString => true
  | String a r =>
      if between 0 127 a then utf8 r
      else
        match r with
        | EmptyString => false
        | String b r1 =>
            if between 194 223 a then between 128 191 b && utf8 r1
            else
              match r1 with
              | EmptyString => false
              | String c r2 =>
                  if between 224 239 a then
                    between (if between 224 224 a then 160 else 128)
                      (if between 237 237 a then 159 else 191) b
                    && between 128 191 c && utf8 r2
                  else
                    match r2 with
                    | EmptyString => false
                    | String d r3 =>
                        between 240 244 a
                        && between (if between 240 240 a then 144 else 128)
                             (if between 244 244 a then 143 else 191) b
                        && between 128 191 c && between 128 191 d && utf8 r3
                    end
              end
        end
  end.

(** A value that is no container and whose [str] and [repr] return in
    every configuration of the interpreter: an integer has 640 digits at
    most, a string is a well-formed text. *)
Definition printable_scalar (v : PyVal) : bool :=
  match v with
  | PNone | PBool _ | PFloat _ => true
  | PInt z => (Z.abs z <? 10 ^ 640)%Z
  | PStr s => utf8 s
  | PList _ | PDict _ => false
  end.

(** [print(f'{v}')] prints the text that [py_str] gives below, in every
    configuration of the interpreter: [v] is such a scalar or a list of
    them. *)
Definition printable (v : PyVal) : bool :=
  match v with
  | PList l => forallb printable_scalar l
  | _ => printable_scalar v
  end.

Section Handlers.

(** [json.loads]. *)
Variable json_loads : string -> Outcome PyVal.

(** [simpleeval.simple_eval], applied to the value found under
    ['expression'].  The evaluator can also return a complex number, as for
    [(-8) ** 0.5], which [calculate] formats into a result string; no value
    of [PyVal] stands for it. *)
Variable simple_eval : PyVal -> Outcome PyVal.

(** The call of a function object of the registry on the unpacked
    inputs. *)
Variable call : Callable -> list PyVal -> Outcome PyVal.

(** [repr] of a float, a list or a dict. *)
Variable repr_ext : PyVal -> string.

(** [str(v)], which is what [{v}] prints in an f-string. *)
Definition py_str (v : PyVal) : string :=
  match v with
  | PNone => "None"
  | PBool b => if b then "True" else "False"
  | PInt z => str_int z
  | PStr s => s
  | PFloat _ | PList _ | PDict _ => repr_ext v
  end.

Definition parse_response (s : string) : M PyVal :=
  try (lift (json_loads s))
    (fun e =>
       match exn_class e with
       | JSONDecodeError =>
           Some (print "Error: Could not decode model response as JSON" ;;;
                 ret PNone)
       | _ => None
       end).

Definition calculate (parsed : PyVal) : M PyVal :=
  tool <- lift (getitem parsed "tool") ;;
  expression <- lift (getitem parsed "expression") ;;
  print ("Calling tool: " ++ py_str tool) ;;;
  print ("Expression: " ++ py_str expression) ;;;
  try (result <- lift (simple_eval expression) ;;
       text <- lift (format_2f result) ;;
       ret (PStr ("Result: " ++ text)))
    (fun e =>
       match exn_class e with
       | ZeroDivisionError =>
           Some (print "Error: Division by zero is not allowed" ;;; ret PNone)
       | InvalidExpression =>
           Some (print "Error: Could not evaluate expression" ;;; ret PNone)
       | _ =>
           Some (print ("Error: Unexpected error — " ++ exn_msg e) ;;; ret PNone)
       end).

Definition convert (parsed : PyVal) : M PyVal :=
  tool <- lift (getitem parsed "tool") ;;
  value <- lift (getitem parsed "value") ;;
  from_unit <- lift (getitem parsed "from_unit") ;;
  to_unit <- lift (getitem parsed "to_unit") ;;
  print ("Calling tool: " ++ py_str tool) ;;;
  print ("Converting : " ++ py_str value ++ " " ++ py_str from_unit
           ++ " to " ++ py_str to_unit) ;;;
  key <- lift (k <~ add from_unit (PStr "_") ;; add k to_unit) ;;
  let finish (new_value : Outcome PyVal) : M PyVal :=
    v <- lift new_value ;;
    text <- lift (format_2f v) ;;
    ret (PStr ("Result : " ++ py_str value ++ " " ++ py_str from_unit
                 ++ " = " ++ text ++ " " ++ py_str to_unit)) in
  if eq_str key "km_miles" then
    finish (mul value (PFloat 0.621371))
  else if eq_str key "miles_km" then
    finish (mul value (PFloat 1.60934))
  else if eq_str key "kg_lbs" then
    finish (mul value (PFloat 2.20462))
  else if eq_str key "lbs_kg" then
    finish (mul value (PFloat 0.453592))
  else if eq_str key "celsius_fahrenheit" then
    finish (a <~ mul value (PInt 9) ;; b <~ truediv a (PInt 5) ;; add b (PInt 32))
  else if eq_str key "fahrenheit_celsius" then
    finish (a <~ sub value (PInt 32) ;; b <~ mul a (PInt 5) ;; truediv b (PInt 9))
  else
    print ("Error: Unsupported conversion — " ++ py_str from_unit ++ " to "
             ++ py_str to_unit) ;;;
    ret PNone.

(** [run_algorithm] over a registry [tools]. *)
Definition run_algorithm_in (tools : Registry) (parsed : PyVal) : M PyVal :=
  operation <- lift (getitem parsed "operation") ;;
  inputs <- lift (getitem parsed "inputs") ;;
  known <- lift (registry_contains tools operation) ;;
  if negb known then
    print ("Error: Unknown operation — " ++ py_str operation) ;;;
    ret PNone
  else
    entry <- lift (registry_getitem tools operation) ;;
    let (func, desc) := entry in
    expected <- lift (expected_inputs desc) ;;
    n <- lift (len inputs) ;;
    if negb (n =? expected)%Z then
      print ("Error: " ++ py_str operation ++ " expects " ++ str_int expected
               ++ " input(s), got " ++ str_int n) ;;;
      ret PNone
    else
      print ("Performing " ++ py_str operation ++ " on " ++ py_str inputs) ;;;
      try (args <- lift (iterate inputs) ;;
           result <- lift (call func args) ;;
           ret (PStr ("Result: " ++ py_str operation ++ "("
                        ++ join ", " (map py_str args) ++ ") = "
                        ++ py_str result)))
        (fun e => Some (print ("Error: " ++ exn_msg e) ;;; ret PNone)).

Definition run_algorithm : PyVal -> M PyVal := run_algorithm_in ALGORITHM_TOOLS.

(** The tag dispatch of the loop body; [result] starts as the empty
    string and is what the chain of tests leaves in it. *)
Definition dispatch (parsed : PyVal) : M PyVal :=
  let result := PStr EmptyString in
  t0 <- lift (getitem parsed "tool") ;;
  if eq_str t0 "none" then
    print "I can only handle math questions and conversions" ;;;
    ret result
  else
    t1 <- lift (t <~ getitem parsed "tool" ;; lower t) ;;
    if eq_str t1 "calculator" then calculate parsed
    else
      t2 <- lift (t <~ getitem parsed "tool" ;; lower t) ;;
      if eq_str t2 "converter" then convert parsed
      else
        t3 <- lift (t <~ getitem parsed "tool" ;; lower t) ;;
        if eq_str t3 "algorithm" then run_algorithm parsed
        else ret result.

(** One turn of the loop, from the model's reply to [result]. *)
Definition turn (content : string) : M PyVal :=
  parsed <- parse_response content ;;
  if is_none parsed then ret (PStr EmptyString) else dispatch parsed.

End Handlers.

(** ** What the specification names

    The definitions of this part follow the words of the specification, to
    be compared with the handlers above. *)

(** The arity column of the specification's operation table. *)
Definition declared_arity (name : string) : option Z :=
  if String.eqb name "gcd" then Some 2%Z
  else if String.eqb name "lcm" then Some 2%Z
  else if String.eqb name "factorial" then Some 1%Z
  else if String.eqb name "is_prime" then Some 1%Z
  else if String.eqb name "nth_root" then Some 2%Z
  else if String.eqb name "log" then Some 2%Z
  else if String.eqb name "log2" then Some 1%Z
  else if String.eqb name "log10" then Some 1%Z
  else if String.eqb name "fibonacci" then Some 1%Z
  else if String.eqb name "circle_area" then Some 1%Z
  else if String.eqb name "hypotenuse" then Some 2%Z
  else if String.eqb name "sin" then Some 1%Z
  else if String.eqb name "cos" then Some 1%Z
  else if String.eqb name "tan" then Some 1%Z
  else None.

(** The conversion table of the specification, on a float value. *)
Definition conversion_table (from_unit to_unit : string) : option (float -> float) :=
  if String.eqb from_unit "km" && String.eqb to_unit "miles"
  then Some (fun v => v * 0.621371)%float
  else if String.eqb from_unit "miles" && String.eqb to_unit "km"
  then Some (fun v => v * 1.60934)%float
  else if String.eqb from_unit "kg" && String.eqb to_unit "lbs"
  then Some (fun v => v * 2.20462)%float
  else if String.eqb from_unit "lbs" && String.eqb to_unit "kg"
  then Some (fun v => v * 0.453592)%float
  else if String.eqb from_unit "celsius" && String.eqb to_unit "fahrenheit"
  then Some (fun v => v * 9 / 5 + 32)%float
  else if String.eqb from_unit "fahrenheit" && String.eqb to_unit "celsius"
  then Some (fun v => (v - 32) * 5 / 9)%float
  else None.

(** The four tags of a tool request. *)
Definition recognized_tag (s : string) : bool :=
  String.eqb s "calculator" || String.eqb s "converter"
  || String.eqb s "algorithm" || String.eqb s "none".

(** *** The arithmetic grammar
    [number | ( expr ) | expr (+|-|*|/|**|%) expr | -expr] *)

Inductive Token : Type :=
| TNum
| TOpen
| TClose
| TMinus
| TBinop.

Definition is_digit (c : ascii) : bool :=
  let n := nat_of_ascii c in andb (Nat.leb 48 n) (Nat.leb n 57).

Definition is_blank (c : ascii) : bool :=
  let n := nat_of_ascii c in orb (Nat.eqb n 32) (Nat.eqb n 9).

Fixpoint skip_digits (s : string) : string :=
  match s with
  | String c r => if is_digit c then skip_digits r else s
  | EmptyString => s
  end.

Definition starts_with_digit (s : string) : bool :=
  match s with
  | String c _ => is_digit c
  | EmptyString => false
  end.

(** What follows an exponent part at the head of [s], if there is one. *)
Definition skip_exponent (s : string) : string :=
  match s with
  | String c r =>
      if Ascii.eqb c "e" || Ascii.eqb c "E" then
        let r' :=
          match r with
          | String d t => if Ascii.eqb d "+" || Ascii.eqb d "-" then t else r
          | EmptyString => r
          end in
        if starts_with_digit r' then skip_digits r' else s
      else s
  | EmptyString => s
  end.

(** What follows the number at the head of [s]: digits, an optional
    fraction, an optional exponent. *)
Definition skip_number (s : string) : string :=
  let s1 := skip_digits s in
  let s2 :=
    match s1 with
    | String c r => if Ascii.eqb c "." then skip_digits r else s1
    | EmptyString => s1
    end in
  skip_exponent s2.

Definition starts_number (s : string) : bool :=
  match s with
  | String c r => is_digit c || (Ascii.eqb c "." && starts_with_digit r)
  | EmptyString => false
  end.

Fixpoint tokens (fuel : nat) (s : string) : option (list Token) :=
  match fuel with
  | O => match s with EmptyString => Some [] | _ => None end
  | S fuel' =>
      match s with
      | EmptyString => Some []
      | String c r =>
          let cons t rest := option_map (cons t) (tokens fuel' rest) in
          if is_blank c then tokens fuel' r
          else if starts_number s then cons TNum (skip_number s)
          else if Ascii.eqb c "(" then cons TOpen r
          else if Ascii.eqb c ")" then cons TClose r
          else if Ascii.eqb c "-" then cons TMinus r
          else if Ascii.eqb c "+" || Ascii.eqb c "/" || Ascii.eqb c "%"
          then cons TBinop r
          else if Ascii.eqb c "*" then
            match r with
            | String "*" r' => cons TBinop r'
            | _ => cons TBinop r
            end
          else None
      end
  end.

(** [expr fuel ts]: the tokens left after one expression at the head of
    [ts], taken as long as possible. *)
Fixpoint expr (fuel : nat) (ts : list Token) : option (list Token) :=
  match fuel with
  | O => None
  | S fuel' =>
      let continue rest :=
        match rest with
        | TMinus :: rest' | TBinop :: rest' => expr fuel' rest'
        | _ => Some rest
        end in
      match ts with
      | TMinus :: rest => expr fuel' rest
      | TNum :: rest => continue rest
      | TOpen :: rest =>
          match expr fuel' rest with
          | Some (TClose :: rest') => continue rest'
          | _ => None
          end
      | _ => None
      end
  end.

(** The expression string is a sentence of the arithmetic grammar. *)
Definition in_arith_grammar (s : string) : bool :=
  match tokens (String.length s) s with
  | Some ts =>
      match expr (S (length ts)) ts with
      | Some [] => true
      | _ => false
      end
  | None => false
  end.

(** *** JSON texts
    [value = object | array | string | number | true | false | null], with
    blanks around the values and the punctuation, as the JSON standard
    defines it. *)

Definition is_json_blank (c : ascii) : bool :=
  let n := nat_of_ascii c in
  Nat.eqb n 32 || Nat.eqb n 9 || Nat.eqb n 10 || Nat.eqb n 13.

Fixpoint skip_json_blanks (s : string) : string :=
  match s with
  | String c r => if is_json_blank c then skip_json_blanks r else s
  | EmptyString => s
  end.

(** What follows the word [p] at the head of [s]. *)
Fixpoint strip_prefix (p s : string) : option string :=
  match p with
  | EmptyString => Some s
  | String a p' =>
      match s with
      | String b s' => if Ascii.eqb a b then strip_prefix p' s' else None
      | EmptyString => None
      end
  end.

Definition is_hex (c : ascii) : bool :=
  is_digit c || between 97 102 c || between 65 70 c.

(** What follows the closing quote of a string whose opening quote has
    been read. *)
Fixpoint json_string_body (s : string) : option string :=
  match s with
  | EmptyString => None
  | String c r =>
      if between 34 34 c then Some r
      else if between 92 92 c then
        match r with
        | String e r1 =>
            if between 34 34 e || between 92 92 e || Ascii.eqb e "/"
               || Ascii.eqb e "b" || Ascii.eqb e "f" || Ascii.eqb e "n"
               || Ascii.eqb e "r" || Ascii.eqb e "t"
            then json_string_body r1
            else if Ascii.eqb e "u" then
              match r1 with
              | String h1 (String h2 (String h3 (String h4 r5))) =>
                  if is_hex h1 && is_hex h2 && is_hex h3 && is_hex h4
                  then json_string_body r5
                  else None
              | _ => None
              end
            else None
        | EmptyString => None
        end
      else if between 0 31 c then None
      else json_string_body r
  end.

(** What follows the number at the head of [s]: an optional minus sign, a
    zero or digits that do not start with a zero, an optional fraction, an
    optional exponent. *)
Definition json_number (s : string) : option string :=
  let s1 :=
    match s with
    | String c r => if Ascii.eqb c "-" then r else s
    | EmptyString => s
    end in
  match s1 with
  | String c r =>
      if is_digit c then
        let s2 := if Ascii.eqb c "0" then r else skip_digits r in
        let s3 :=
          match s2 with
          | String d t =>
              if Ascii.eqb d "." && starts_with_digit t then skip_digits t
              else s2
          | EmptyString => s2
          end in
        Some (skip_exponent s3)
      else None
  | EmptyString => None
  end.

(** What follows the value at the head of [s]; [json_elements] reads the
    elements of an array after its bracket or a comma, [json_members] the
    members of an object. *)
Fixpoint json_value (fuel : nat) (s : string) : option string :=
  match fuel with
  | O => None
  | S fuel' =>
      match skip_json_blanks s with
      | EmptyString => None
      | String c r as s' =>
          if between 34 34 c then json_string_body r
          else if Ascii.eqb c "[" then
            match skip_json_blanks r with
            | String d t => if Ascii.eqb d "]" then Some t else json_elements fuel' r
            | EmptyString => None
            end
          else if Ascii.eqb c "{" then
            match skip_json_blanks r with
            | String d t => if Ascii.eqb d "}" then Some t else json_members fuel' r
            | EmptyString => None
            end
          else if Ascii.eqb c "-" || is_digit c then json_number s'
          else
            match strip_prefix "true" s', strip_prefix "false" s',
                  strip_prefix "null" s' with
            | Some t, _, _ | None, Some t, _ | None, None, Some t => Some t
            | None, None, None => None
            end
      end
  end
with json_elements (fuel : nat) (s : string) : option string :=
  match fuel with
  | O => None
  | S fuel' =>
      match json_value fuel' s with
      | Some t =>
          match skip_json_blanks t with
          | String d u =>
              if Ascii.eqb d "," then json_elements fuel' u
              else if Ascii.eqb d "]" then Some u
              else None
          | EmptyString => None
          end
      | None => None
      end
  end
with json_members (fuel : nat) (s : string) : option string :=
  match fuel with
  | O => None
  | S fuel' =>
      match skip_json_blanks s with
      | String q r =>
          if between 34 34 q then
            match json_string_body r with
            | Some t =>
                match skip_json_blanks t with
                | String d u =>
                    if Ascii.eqb d ":" then
                      match json_value fuel' u with
                      | Some w =>
                          match skip_json_blanks w with
                          | String x y =>
                              if Ascii.eqb x "," then json_members fuel' y
                              else if Ascii.eqb x "}" then Some y
                              else None
                          | EmptyString => None
                          end
                      | None => None
                      end
                    else None
                | EmptyString => None
                end
            | None => None
            end
          else None
      | EmptyString => None
      end
  end.

(** The text is valid JSON: one value and blanks around it. *)
Definition is_json (s : string) : bool :=
  match json_value (2 * String.length s + 2) s with
  | Some t =>
      match skip_json_blanks t with
      | EmptyString => true
      | _ => false
      end
  | None => false
  end.

(** The value is a JSON object. *)
Definition is_object (v : PyVal) : bool :=
  match v with
  | PDict _ => true
  | _ => false
  end.

(** The result of a handler that the specification calls a result string
    or an absence of result. *)
Definition string_or_none (v : PyVal) : Prop :=
  v = PNone \/ exists s, v = PStr s.

(** A float that is a number: a zero or a finite nonzero value. *)
Definition is_finite (f : float) : bool :=
  match Prim2SF f with
  | S754_zero _ | S754_finite _ _ _ => true
  | _ => false
  end.

(** [q] is an integer nearest to [100 * m * 2^e]: they differ by a half at
    most. *)
Definition nearest_hundredths (m : positive) (e q : Z) : Prop :=
  let d := (2 ^ Z.max 0 (- e))%Z in
  (2 * Z.abs (q * d - 100 * Zpos m * 2 ^ Z.max 0 e) <= d)%Z.

(** The text is a fixed-point numeral with exactly two decimals, and the
    number it writes is the value of the float [x] rounded to the nearest
    hundredth. *)
Definition two_decimals_of (x : float) (text : string) : Prop :=
  exists (neg : bool) (ip d1 d2 : Z),
    text = (if neg then "-" else EmptyString) ++ str_int ip ++ "."
             ++ String (digit d1) (String (digit d2) EmptyString)
    /\ (0 <= ip)%Z /\ (0 <= d1 <= 9)%Z /\ (0 <= d2 <= 9)%Z
    /\ match Prim2SF x with
       | S754_zero s => neg = s /\ (100 * ip + 10 * d1 + d2 = 0)%Z
       | S754_finite s m e =>
           neg = s /\ nearest_hundredths m e (100 * ip + 10 * d1 + d2)
       | _ => False
       end.

(** ** The libraries on the inputs of the examples

    The values below are what the libraries answer on the listed inputs;
    the examples use no other input, on which the tables answer with an
    exception. *)

(** [json.loads]: [null] decodes to [None], an array to a list, a number
    to an int; a text that starts an object without a quoted key is not
    JSON. *)
Definition json_loads_sample (s : string) : Outcome PyVal :=
  if String.eqb s "null" then Return PNone
  else if String.eqb s "[1, 2]" then Return (PList [PInt 1; PInt 2])
  else if String.eqb s "5" then Return (PInt 5)
  else
    Raise (mkExn JSONDecodeError
             "Expecting property name enclosed in double quotes: line 1 column 2 (char 1)").

(** [simple_eval]: an undefined function is rejected with a subclass of
    [InvalidExpression]; [int] is one of the functions simpleeval defines
    by default; the literal [1e999] is read by Python as the float [inf]. *)
Definition simple_eval_sample (v : PyVal) : Outcome PyVal :=
  if eq_str v "sqrt(25)" then
    Raise (mkExn InvalidExpression
             "Function 'sqrt' not defined, for expression 'sqrt(25)'.")
  else if eq_str v "int(5)" then Return (PInt 5)
  else if eq_str v "1e999" then Return (PFloat infinity)
  else if eq_str v "25 ** 0.5" then Return (PFloat 5)
  else if eq_str v "10 + 5" then Return (PInt 15)
  else if eq_str v "10/0" then Raise (mkExn ZeroDivisionError "division by zero")
  else Raise (mkExn OtherException "not an input of the examples").

(** The registry functions: [math.gcd] of one or two integers. *)
Definition call_sample (f : Callable) (args : list PyVal) : Outcome PyVal :=
  match f, args with
  | math_gcd, [PInt a] => Return (PInt (Z.abs a))
  | math_gcd, [PInt a; PInt b] => Return (PInt (Z.gcd a b))
  | _, _ => Raise (mkExn OtherException "not an input of the examples")
  end.

(** [repr] of an integer as a float, below the sixteen digits where Python
    turns to the exponent notation. *)
Definition repr_integral_float (f : float) : string :=
  match Prim2SF f with
  | S754_zero s => if s then "-0.0" else "0.0"
  | S754_finite s m e =>
      let d := (2 ^ (- e))%Z in
      let n := if (0 <=? e)%Z then (Zpos m * 2 ^ e)%Z else (Zpos m / d)%Z in
      if ((0 <=? e)%Z || (Zpos m mod d =? 0)%Z) && (n <? 10 ^ 16)%Z
      then (if s then "-" else EmptyString) ++ str_int n ++ ".0"
      else "?"
  | _ => "?"
  end.

(** [repr] of an integral float and of a list of integers. *)
Definition repr_sample (v : PyVal) : string :=
  match v with
  | PFloat f => repr_integral_float f
  | PList l =>
      "[" ++ join ", " (map (fun x => match x with
                                      | PInt z => str_int z
                                      | _ => "?"
                                      end) l) ++ "]"
  | _ => "?"
  end.

(** [json.loads] accepts the three words [NaN], [Infinity] and
    [-Infinity], which are not JSON, and decodes them to floats. *)
Definition json_loads_constants (s : string) : Outcome PyVal :=
  if String.eqb s "NaN" then Return (PFloat nan)
  else if String.eqb s "Infinity" then Return (PFloat infinity)
  else if String.eqb s "-Infinity" then Return (PFloat neg_infinity)
  else json_loads_sample s.


(** [repr] of the float [1e308], and of the values of [repr_sample]. *)
Definition repr_wide (v : PyVal) : string :=
  match v with
  | PFloat f => if (f =? 1e308)%float then "1e+308" else repr_sample v
  | _ => repr_sample v
  end.

(** A request object with the fields of the converter. *)
Definition converter_request (value : PyVal) (from_unit to_unit : string) : PyVal :=
  PDict [ ("tool", PStr "converter"); ("value", value);
          ("from_unit", PStr from_unit); ("to_unit", PStr to_unit) ].

(** A request object with the fields of the calculator. *)
Definition calculator_request (expression : string) : PyVal :=
  PDict [ ("tool", PStr "calculator"); ("expression", PStr expression) ].

(** A request object with the fields of the algorithm tool. *)
Definition algorithm_request (operation : string) (inputs : list PyVal) : PyVal :=
  PDict [ ("tool", PStr "algorithm"); ("operation", PStr operation);
          ("inputs", PList inputs) ].

(** ** The primality test of the registry *)

(** [range(a, b)]. *)
Definition range (a b : Z) : list Z :=
  map (fun k => (a + Z.of_nat k)%Z) (seq 0 (Z.to_nat (b - a))).

(** The lambda stored under [is_prime], on an integer [n]:
    [n > 1 and all(n % i != 0 for i in range(2, int(n ** 0.5) + 1))].
    The float power is the library's; [int_root n] is the value of
    [int(n ** 0.5)]. *)
Definition is_prime (int_root : Z -> Z) (n : Z) : bool :=
  (1 <? n)%Z
  && forallb (fun i => negb (n mod i =? 0)%Z) (range 2 (int_root n + 1)).

(** ** The prompt and the interactive loop *)

Definition newline : string := String (ascii_of_nat 10) EmptyString.

(** One line of [tool_descriptions]: the name between double quotes and
    the description. *)
Definition describe (entry : string * (Callable * string)) : string :=
  "  - " ++ dquote ++ fst entry ++ dquote ++ ": " ++ snd (snd entry).

(** [tool_descriptions], over a registry. *)
Definition tool_descriptions_of (tools : Registry) : string :=
  join newline (map describe tools).

Definition tool_descriptions : string := tool_descriptions_of ALGORITHM_TOOLS.

(** A chat message: [{'role': ..., 'content': ...}]. *)
Record Message : Type := mkMessage { role : string; content : string }.

(** What the program does to the outside: a prompt for a line of input, a
    printed line, a text printed without the end of line, a call of [chat]
    with its model, messages and [stream] flag. *)
Inductive Event : Type :=
| Input (prompt : string)
| Print (line : string)
| PrintNoEnd (text : string)
| Chat (model : string) (messages : list Message) (stream : bool).

(** What the outside answers during one pass of the loop: the line typed
    by the user, the content of the model's reply to the first call, and the
    pieces of the streamed summary. *)
Record Interaction : Type := mkInteraction {
  user_input : string;
  reply : Outcome string;
  summary : Outcome (list string)
}.

Definition ask : string :=
  newline ++ "Ask a math question (or type 'exit'): ".

Definition RESPONSE_PROMPT : string :=
  "You are a helpful assistant. Answer naturally in one sentence. Do not use JSON.".

Section Loop.

(** The text of [SYSTEM_PROMPT] before and after the operation list. *)
Variables prompt_head prompt_tail : string.
Variable json_loads : string -> Outcome PyVal.
Variable simple_eval : PyVal -> Outcome PyVal.
Variable call : Callable -> list PyVal -> Outcome PyVal.
Variable repr_ext : PyVal -> string.

Definition SYSTEM_PROMPT : string :=
  prompt_head ++ tool_descriptions ++ prompt_tail.

(** The global [messages] once the system prompt is appended; the loop
    never assigns to it nor appends to it. *)
Definition messages : list Message :=
  app [] [mkMessage "system" SYSTEM_PROMPT].

(** The messages of the summary call. *)
Definition summary_messages (line : string) (result : PyVal) : list Message :=
  [ mkMessage "system" RESPONSE_PROMPT;
    mkMessage "user" line;
    mkMessage "assistant" ("Tool result: " ++ py_str repr_ext result);
    mkMessage "user" "Now summarize that result naturally in one sentence." ].

(** The [while True] loop over what the outside answers; past the last
    answer [input] meets the end of the input and raises [EOFError]. *)
Fixpoint main_loop (world : list Interaction) : list Event * Outcome unit :=
  match world with
  | [] => ([Input ask], Raise (mkExn OtherException "EOF when reading a line"))
  | now :: later =>
      if String.eqb (str_lower (user_input now)) "exit"
      then ([Input ask], Return tt)
      else
        let message := app messages [mkMessage "user" (user_input now)] in
        let first := [Input ask; Chat "llama3.1" message false] in
        match reply now with
        | Raise e => (first, Raise e)
        | Return text =>
            let (lines, o) := turn json_loads simple_eval call repr_ext text in
            let handled := app first (map Print lines) in
            match o with
            | Raise e => (handled, Raise e)
            | Return result =>
                if truthy result then
                  let asked :=
                    app handled
                      [Chat "llama3.1"
                         (summary_messages (user_input now) result) true] in
                  match summary now with
                  | Raise e => (asked, Raise e)
                  | Return pieces =>
                      let (events, o') := main_loop later in
                      (app asked
                         (app (map PrintNoEnd pieces)
                            (Print EmptyString :: events)),
                       o')
                  end
                else
                  let (events, o') := main_loop later in
                  (app handled events, o')
            end
        end
  end.

End Loop.

(** What a call of [chat] is in a session [world].  The call without
    streaming belongs to a pass of the session whose line does not end the
    loop, and carries the system prompt and the line of that pass and
    nothing else.  The streamed call belongs to a pass whose reply made the
    turn return a string that is not empty, and carries the summary
    messages around the line of that pass and that string. *)
Definition chat_of_session
  (system_prompt : string)
  (json_loads : string -> Outcome PyVal)
  (simple_eval : PyVal -> Outcome PyVal)
  (call : Callable -> list PyVal -> Outcome PyVal)
  (repr_ext : PyVal -> string)
  (world : list Interaction) (e : Event) : Prop :=
  match e with
  | Chat model msgs false =>
      model = "llama3.1"
      /\ exists now,
           In now world
           /\ str_lower (user_input now) <> "exit"
           /\ msgs = [ mkMessage "system" system_prompt;
                       mkMessage "user" (user_input now) ]
  | Chat model msgs true =>
      model = "llama3.1"
      /\ exists now text s,
           In now world
           /\ str_lower (user_input now) <> "exit"
           /\ reply now = Return text
           /\ outcome (turn json_loads simple_eval call repr_ext text)
              = Return (PStr s)
           /\ s <> EmptyString
           /\ msgs
              = [ mkMessage "system" RESPONSE_PROMPT;
                  mkMessage "user" (user_input now);
                  mkMessage "assistant" ("Tool result: " ++ s);
                  mkMessage "user"
                    "Now summarize that result naturally in one sentence." ]
  | _ => True
  end.

(** A reply of the model that asks for the greatest common divisor of 144
    and 49, as a JSON text. *)
Definition gcd_reply : string :=
  "{" ++ dquote ++ "tool" ++ dquote ++ ": " ++ dquote ++ "algorithm" ++ dquote
    ++ ", " ++ dquote ++ "operation" ++ dquote ++ ": " ++ dquote ++ "gcd"
    ++ dquote ++ ", " ++ dquote ++ "inputs" ++ dquote ++ ": [144, 49]}".

(** [json.loads] on the replies of the session below. *)
Definition json_loads_session (s : string) : Outcome PyVal :=
  if String.eqb s gcd_reply
  then Return (algorithm_request "gcd" [PInt 144; PInt 49])
  else json_loads_sample s.

(** A session: a question answered with a tool call, a question answered
    with a text that is not JSON, then the word that ends the loop and a line
    that is never read. *)
Definition session : list Interaction :=
  [ mkInteraction "What is the GCD of 144 and 49?" (Return gcd_reply)
      (Return ["The GCD "; "is 1."]);
    mkInteraction "hello" (Return "{tool: calculator") (Return []);
    mkInteraction "Exit" (Return EmptyString) (Return []);
    mkInteraction "2 + 2" (Return EmptyString) (Return []) ].


(** The character occurs in the string. *)
Fixpoint has_char (c : ascii) (s : string) : bool :=
  match s with
  | EmptyString => false
  | String a r => Ascii.eqb a c || has_char c r
  end.

(** * Properties *)

(** ** The monad of printing programs *)

Lemma bind_lift_return {A B} (a : A) (k : A -> M B) :
  bind (lift (Return a)) k = k a.
Proof. unfold bind, lift. destruct (k a) as [out o]. reflexivity. Qed.

Lemma bind_lift_raise {A B} (e : Exn) (k : A -> M B) :
  bind (lift (Raise e)) k = ([], Raise e).
Proof. reflexivity. Qed.

Lemma bind_print {B} (s : string) (k : unit -> M B) :
  bind (print s) k = (s :: printed (k tt), outcome (k tt)).
Proof. unfold bind, print, printed, outcome. destruct (k tt). reflexivity. Qed.

Lemma bind_print_cong {B} (s : string) (k1 k2 : unit -> M B) :
  k1 tt = k2 tt -> bind (print s) k1 = bind (print s) k2.
Proof. intros H. rewrite !bind_print, H. reflexivity. Qed.

Lemma bind_ret {A B} (a : A) (k : A -> M B) : bind (ret a) k = k a.
Proof. apply bind_lift_return. Qed.

Lemma surjective_run {A} (m : M A) : m = (printed m, outcome m).
Proof. destruct m; reflexivity. Qed.

(** Rewriting a program into the lines it prints and its outcome. *)
Ltac run :=
  repeat (rewrite ?bind_lift_return, ?bind_lift_raise, ?bind_print, ?bind_ret;
          cbn [printed outcome fst snd obind]).

(** ** The response parser *)

Section ParserFacts.

Variable json_loads : string -> Outcome PyVal.

Lemma parse_response_return (s : string) (v : PyVal) :
  json_loads s = Return v -> parse_response json_loads s = ([], Return v).
Proof. intros H. unfold parse_response, try, lift. rewrite H. reflexivity. Qed.

Lemma parse_response_raise (s : string) (e : Exn) :
  json_loads s = Raise e ->
  parse_response json_loads s =
    match exn_class e with
    | JSONDecodeError =>
        (["Error: Could not decode model response as JSON"], Return PNone)
    | _ => ([], Raise e)
    end.
Proof.
  intros H. unfold parse_response, try, lift. rewrite H.
  destruct (exn_class e); reflexivity.
Qed.

End ParserFacts.

(** C9, as the code has it.  [parse_response] reports a failure exactly
    when [json.loads] raises [JSONDecodeError]: it prints the diagnostic
    and returns [None] then, and only then.  A text that [json.loads]
    decodes is returned decoded with nothing printed, whether it is valid
    JSON or not, and an exception of another class that [json.loads] raises
    leaves the parser. *)
Theorem parse_response_malformed
  (json_loads : string -> Outcome PyVal) (s : string) :
  (parse_response json_loads s
   = (["Error: Could not decode model response as JSON"], Return PNone)
   <-> exists e, json_loads s = Raise e /\ exn_class e = JSONDecodeError)
  /\ (forall v, json_loads s = Return v ->
                parse_response json_loads s = ([], Return v))
  /\ (forall e, json_loads s = Raise e ->
                exn_class e <> JSONDecodeError ->
                parse_response json_loads s = ([], Raise e)).
Proof.
  split; [split | split].
  - destruct (json_loads s) as [v | e] eqn:H.
    + rewrite (parse_response_return _ _ _ H). discriminate.
    + rewrite (parse_response_raise _ _ _ H). intros E. exists e.
      split; [reflexivity |]. destruct (exn_class e); try discriminate E.
      reflexivity.
  - intros (e & H & Hc). rewrite (parse_response_raise _ _ _ H), Hc.
    reflexivity.
  - intros v H. apply parse_response_return, H.
  - intros e H Hc. rewrite (parse_response_raise _ _ _ H).
    destruct (exn_class e); try reflexivity. contradiction.
Qed.

Lemma parse_response_malformed_witness :
  is_json "{tool: calculator" = false
  /\ parse_response json_loads_sample "{tool: calculator"
     = (["Error: Could not decode model response as JSON"], Return PNone).
Proof.
  split; [reflexivity |].
  apply (proj1 (parse_response_malformed json_loads_sample "{tool: calculator")).
  exists (mkExn JSONDecodeError
            "Expecting property name enclosed in double quotes: line 1 column 2 (char 1)").
  split; reflexivity.
Defined.

(** C9, counterexample.  The text [NaN] is not valid JSON, which has no
    such word; [json.loads] accepts it all the same and decodes it to the
    float that is not a number, and [parse_response] returns that float
    without a diagnostic. *)
Lemma parse_response_accepts_nan :
  is_json "NaN" = false
  /\ json_loads_constants "NaN" = Return (PFloat nan)
  /\ parse_response json_loads_constants "NaN" = ([], Return (PFloat nan))
  /\ parse_response json_loads_constants "NaN"
     <> (["Error: Could not decode model response as JSON"], Return PNone).
Proof.
  split; [reflexivity | split; [reflexivity | split; [reflexivity |]]].
  discriminate.
Qed.

(** ** The turn and the dispatch *)

Section TurnFacts.

Variable json_loads : string -> Outcome PyVal.
Variable simple_eval : PyVal -> Outcome PyVal.
Variable call : Callable -> list PyVal -> Outcome PyVal.
Variable repr_ext : PyVal -> string.

Lemma turn_decoded (s : string) (v : PyVal) :
  json_loads s = Return v ->
  turn json_loads simple_eval call repr_ext s
  = if is_none v then ([], Return (PStr EmptyString))
    else dispatch simple_eval call repr_ext v.
Proof.
  intros H. unfold turn. rewrite (parse_response_return _ _ _ H).
  unfold bind. destruct (is_none v).
  - reflexivity.
  - destruct (dispatch simple_eval call repr_ext v). reflexivity.
Qed.

Lemma dispatch_not_object (v : PyVal) :
  is_object v = false ->
  printed (dispatch simple_eval call repr_ext v) = []
  /\ raises TypeError (outcome (dispatch simple_eval call repr_ext v)).
Proof.
  intros H. destruct v; try discriminate H; split; reflexivity.
Qed.

End TurnFacts.

(** C10, as the code has it.  Whatever value the reply decodes to,
    [parse_response] returns it and prints nothing.  A decoded value other
    than [None] goes to the tag dispatch as it is, and when it is not an
    object the tag lookup raises [TypeError]; a decoded [null] is [None],
    the value of a parse failure, and the dispatch is skipped. *)
Theorem parse_response_any_json
  (json_loads : string -> Outcome PyVal)
  (simple_eval : PyVal -> Outcome PyVal)
  (call : Callable -> list PyVal -> Outcome PyVal)
  (repr_ext : PyVal -> string) (s : string) (v : PyVal) :
  json_loads s = Return v ->
  parse_response json_loads s = ([], Return v)
  /\ (is_none v = false ->
      turn json_loads simple_eval call repr_ext s
      = dispatch simple_eval call repr_ext v)
  /\ (is_none v = false -> is_object v = false ->
      printed (turn json_loads simple_eval call repr_ext s) = []
      /\ raises TypeError (outcome (turn json_loads simple_eval call repr_ext s)))
  /\ (is_none v = true ->
      turn json_loads simple_eval call repr_ext s = ([], Return (PStr EmptyString))).
Proof.
  intros H. split; [| split; [| split]].
  - apply parse_response_return, H.
  - intros Hn. rewrite (turn_decoded _ _ _ _ _ _ H), Hn. reflexivity.
  - intros Hn Ho. rewrite (turn_decoded _ _ _ _ _ _ H), Hn.
    apply dispatch_not_object, Ho.
  - intros Hn. rewrite (turn_decoded _ _ _ _ _ _ H), Hn. reflexivity.
Qed.

Lemma parse_response_any_json_witness :
  parse_response json_loads_sample "[1, 2]" = ([], Return (PList [PInt 1; PInt 2]))
  /\ raises TypeError
       (outcome (turn json_loads_sample simple_eval_sample call_sample repr_sample
                   "[1, 2]")).
Proof.
  destruct (parse_response_any_json json_loads_sample simple_eval_sample
              call_sample repr_sample "[1, 2]" (PList [PInt 1; PInt 2])
              eq_refl) as (Hp & _ & Ht & _).
  split.
  - exact Hp.
  - exact (proj2 (Ht eq_refl eq_refl)).
Defined.

(** C10, counterexample.  The reply [null] is valid JSON and not an
    object; what [parse_response] returns for it is [None], the very value
    it returns for a text that is not JSON, and the turn ends with the
    empty result without the tag lookup, which would raise on [None]. *)
Lemma null_reply_not_dispatched :
  json_loads_sample "null" = Return PNone
  /\ outcome (parse_response json_loads_sample "null")
     = outcome (parse_response json_loads_sample "{tool: calculator")
  /\ turn json_loads_sample simple_eval_sample call_sample repr_sample "null"
     = ([], Return (PStr EmptyString))
  /\ turn json_loads_sample simple_eval_sample call_sample repr_sample "null"
     <> dispatch simple_eval_sample call_sample repr_sample PNone.
Proof.
  repeat split; try reflexivity. discriminate.
Qed.

Section DispatchFacts.

Variable simple_eval : PyVal -> Outcome PyVal.
Variable call : Callable -> list PyVal -> Outcome PyVal.
Variable repr_ext : PyVal -> string.

Lemma dispatch_string_tag (parsed : PyVal) (tag : string) :
  getitem parsed "tool" = Return (PStr tag) ->
  dispatch simple_eval call repr_ext parsed
  = if String.eqb tag "none"
    then (["I can only handle math questions and conversions"],
          Return (PStr EmptyString))
    else if String.eqb (str_lower tag) "calculator"
    then calculate simple_eval repr_ext parsed
    else if String.eqb (str_lower tag) "converter"
    then convert repr_ext parsed
    else if String.eqb (str_lower tag) "algorithm"
    then run_algorithm call repr_ext parsed
    else ([], Return (PStr EmptyString)).
Proof.
  intros H. unfold dispatch. rewrite H. run. cbn [eq_str lower].
  destruct (String.eqb tag "none"); [reflexivity |].
  run. cbn [eq_str].
  destruct (String.eqb (str_lower tag) "calculator"); [reflexivity |].
  run. cbn [eq_str].
  destruct (String.eqb (str_lower tag) "converter"); [reflexivity |].
  run. cbn [eq_str].
  destruct (String.eqb (str_lower tag) "algorithm"); reflexivity.
Qed.

End DispatchFacts.

(** C2, as the code has it.  A request whose tag is a string other than
    [none] and that does not read [calculator], [converter] or [algorithm]
    once lowered runs no handler: the dispatch prints nothing and leaves
    the result empty, so that the turn ends without a summary. *)
Theorem dispatch_unrecognized_tag
  (simple_eval : PyVal -> Outcome PyVal)
  (call : Callable -> list PyVal -> Outcome PyVal)
  (repr_ext : PyVal -> string) (parsed : PyVal) (tag : string) :
  getitem parsed "tool" = Return (PStr tag) ->
  tag <> "none" ->
  str_lower tag <> "calculator" ->
  str_lower tag <> "converter" ->
  str_lower tag <> "algorithm" ->
  dispatch simple_eval call repr_ext parsed = ([], Return (PStr EmptyString))
  /\ truthy (PStr EmptyString) = false.
Proof.
  intros H Hn Hc Hv Ha. split; [| reflexivity].
  rewrite (dispatch_string_tag _ _ _ _ _ H).
  apply String.eqb_neq in Hn, Hc, Hv, Ha.
  rewrite Hn, Hc, Hv, Ha. reflexivity.
Qed.

Lemma dispatch_unrecognized_tag_witness :
  dispatch simple_eval_sample call_sample repr_sample
    (PDict [("tool", PStr "NONE")])
  = ([], Return (PStr EmptyString))
  /\ truthy (PStr EmptyString) = false.
Proof.
  apply (dispatch_unrecognized_tag simple_eval_sample call_sample repr_sample
           (PDict [("tool", PStr "NONE")]) "NONE");
    [reflexivity | discriminate | discriminate | discriminate | discriminate].
Defined.

(** C2, counterexample.  The tag [weather] is none of the four tags, and
    the dispatch neither fails nor reports it: nothing is printed and the
    result is the empty string the loop started with. *)
Lemma unknown_tag_silently_skipped :
  recognized_tag "weather" = false
  /\ dispatch simple_eval_sample call_sample repr_sample
       (PDict [("tool", PStr "weather")])
     = ([], Return (PStr EmptyString)).
Proof. split; reflexivity. Qed.

(** ** The arithmetic evaluator *)

Section CalculateFacts.

Variable simple_eval : PyVal -> Outcome PyVal.
Variable repr_ext : PyVal -> string.
Variables parsed tool expression : PyVal.
Hypothesis Htool : getitem parsed "tool" = Return tool.
Hypothesis Hexpression : getitem parsed "expression" = Return expression.

Let trace : list string :=
  [ "Calling tool: " ++ py_str repr_ext tool;
    "Expression: " ++ py_str repr_ext expression ].

(** What the [except] clauses print for an exception. *)
Let diagnostic (e : Exn) : string :=
  match exn_class e with
  | ZeroDivisionError => "Error: Division by zero is not allowed"
  | InvalidExpression => "Error: Could not evaluate expression"
  | _ => "Error: Unexpected error — " ++ exn_msg e
  end.

Lemma calculate_evaluator_raises (e : Exn) :
  simple_eval expression = Raise e ->
  calculate simple_eval repr_ext parsed
  = ((trace ++ [diagnostic e])%list, Return PNone).
Proof.
  intros H. unfold calculate. rewrite Htool, Hexpression. run.
  rewrite H. unfold try, diagnostic. run.
  destruct (exn_class e); reflexivity.
Qed.

Lemma calculate_evaluator_returns (v : PyVal) :
  simple_eval expression = Return v ->
  calculate simple_eval repr_ext parsed
  = match format_2f v with
    | Return text => (trace, Return (PStr ("Result: " ++ text)))
    | Raise e => ((trace ++ [diagnostic e])%list, Return PNone)
    end.
Proof.
  intros H. unfold calculate. rewrite Htool, Hexpression. run.
  rewrite H. run. unfold diagnostic.
  destruct (format_2f v) as [text | e]; run.
  - reflexivity.
  - unfold try. cbn [printed outcome fst snd].
    destruct (exn_class e); reflexivity.
Qed.

Lemma calculate_total :
  exists out r,
    calculate simple_eval repr_ext parsed = (out, Return r)
    /\ string_or_none r.
Proof.
  destruct (simple_eval expression) as [v | e] eqn:H.
  - rewrite (calculate_evaluator_returns v H).
    destruct (format_2f v) as [text | e'].
    + do 2 eexists. split; [reflexivity | right; eauto].
    + do 2 eexists. split; [reflexivity | left; reflexivity].
  - rewrite (calculate_evaluator_raises e H).
    do 2 eexists. split; [reflexivity | left; reflexivity].
Qed.

Lemma calculate_result_needs_value (s : string) :
  outcome (calculate simple_eval repr_ext parsed) = Return (PStr s) ->
  exists v text,
    simple_eval expression = Return v /\ format_2f v = Return text
    /\ s = "Result: " ++ text.
Proof.
  destruct (simple_eval expression) as [v | e] eqn:H.
  - rewrite (calculate_evaluator_returns v H).
    destruct (format_2f v) as [text | e'] eqn:F; cbn; intros E.
    + exists v, text. injection E as <-.
      split; [reflexivity | split; [exact F | reflexivity]].
    + discriminate E.
  - rewrite (calculate_evaluator_raises e H). cbn. discriminate.
Qed.

End CalculateFacts.

(** ** Two decimals *)

Lemma round_half_even_nearest (n d : Z) :
  (0 < d)%Z -> (2 * Z.abs (round_half_even n d * d - n) <= d)%Z.
Proof.
  intros Hd. unfold round_half_even.
  pose proof (Z.div_mod n d ltac:(lia)) as E.
  pose proof (Z.mod_pos_bound n d Hd) as B.
  destruct (Z.ltb_spec (2 * (n mod d)) d);
    [| destruct (Z.ltb_spec d (2 * (n mod d))); [| destruct (Z.even (n / d))]];
    nia.
Qed.

Lemma round_half_even_nonneg (n d : Z) :
  (0 <= n)%Z -> (0 < d)%Z -> (0 <= round_half_even n d)%Z.
Proof.
  intros Hn Hd. unfold round_half_even.
  pose proof (Z.div_pos n d Hn Hd).
  repeat match goal with |- context [if ?b then _ else _] => destruct b end; lia.
Qed.

Lemma hundredths_nonneg (m : positive) (e : Z) : (0 <= hundredths m e)%Z.
Proof.
  unfold hundredths. destruct (Z.leb_spec 0 e).
  - pose proof (Z.pow_nonneg 2 e ltac:(lia)). nia.
  - apply round_half_even_nonneg; [lia |]. apply Z.pow_pos_nonneg; lia.
Qed.

Lemma hundredths_nearest (m : positive) (e : Z) :
  nearest_hundredths m e (hundredths m e).
Proof.
  unfold nearest_hundredths, hundredths. cbv zeta.
  destruct (Z.leb_spec 0 e).
  - rewrite (Z.max_l 0 (- e)), (Z.max_r 0 e) by lia.
    change (2 ^ 0)%Z with 1%Z.
    pose proof (Z.pow_nonneg 2 e ltac:(lia)). nia.
  - rewrite (Z.max_r 0 (- e)), (Z.max_l 0 e) by lia.
    change (2 ^ 0)%Z with 1%Z. rewrite Z.mul_1_r.
    apply round_half_even_nearest. apply Z.pow_pos_nonneg; lia.
Qed.

Lemma fixed2_digits (neg : bool) (q : Z) :
  (0 <= q)%Z ->
  fixed2 neg q
  = (if neg then "-" else EmptyString) ++ str_int (q / 100) ++ "."
      ++ String (digit (q mod 100 / 10)) (String (digit (q mod 10)) EmptyString)
  /\ (0 <= q / 100)%Z /\ (0 <= q mod 100 / 10 <= 9)%Z /\ (0 <= q mod 10 <= 9)%Z
  /\ (100 * (q / 100) + 10 * (q mod 100 / 10) + q mod 10 = q)%Z.
Proof.
  intros Hq. split; [reflexivity |].
  Z.div_mod_to_equations. lia.
Qed.

Lemma format_2f_float_two_decimals (x : float) :
  is_finite x = true -> two_decimals_of x (format_2f_float x).
Proof.
  unfold is_finite, format_2f_float, two_decimals_of.
  destruct (Prim2SF x) as [s | s | | s m e]; try discriminate; intros _.
  - exists s, 0%Z, 0%Z, 0%Z.
    split; [destruct s; reflexivity | repeat split; lia].
  - destruct (fixed2_digits s (hundredths m e) (hundredths_nonneg m e))
      as (E & H1 & H2 & H3 & H4).
    exists s, (hundredths m e / 100)%Z, (hundredths m e mod 100 / 10)%Z,
      (hundredths m e mod 10)%Z.
    split; [exact E |].
    split; [lia |]. split; [lia |]. split; [lia |]. split; [reflexivity |].
    rewrite H4. apply hundredths_nearest.
Qed.

Lemma format_2f_float_not_finite (x : float) :
  is_finite x = false ->
  format_2f_float x = "inf" \/ format_2f_float x = "-inf"
  \/ format_2f_float x = "nan".
Proof.
  unfold is_finite, format_2f_float.
  destruct (Prim2SF x) as [sg | sg | | sg m e]; try discriminate; intros _.
  - destruct sg; auto.
  - auto.
Qed.

(** C1, as the code has it.  [calculate] has no grammar check of its own:
    what it returns is decided by what [simple_eval] does with the
    expression, inside the grammar or outside.  Whenever [simple_eval]
    raises, the handler returns [None], and for an exception of class
    [InvalidExpression] (an undefined function or name) it prints that the
    expression could not be evaluated.  Whenever [simple_eval] returns a
    value, the handler returns [Result: ] followed by the value formatted
    with [.2f] when the value accepts that format, and [None] when it does
    not. *)
Theorem calculate_rejected_expression
  (simple_eval : PyVal -> Outcome PyVal) (repr_ext : PyVal -> string)
  (parsed tool expression : PyVal) :
  getitem parsed "tool" = Return tool ->
  getitem parsed "expression" = Return expression ->
  printable tool = true ->
  printable expression = true ->
  let trace :=
    [ "Calling tool: " ++ py_str repr_ext tool;
      "Expression: " ++ py_str repr_ext expression ] in
  (forall e, simple_eval expression = Raise e ->
             outcome (calculate simple_eval repr_ext parsed) = Return PNone
             /\ (exn_class e = InvalidExpression ->
                 printed (calculate simple_eval repr_ext parsed)
                 = app trace [ "Error: Could not evaluate expression" ]))
  /\ (forall v text, simple_eval expression = Return v ->
                     format_2f v = Return text ->
                     calculate simple_eval repr_ext parsed
                     = (trace, Return (PStr ("Result: " ++ text))))
  /\ (forall v e, simple_eval expression = Return v ->
                  format_2f v = Raise e ->
                  outcome (calculate simple_eval repr_ext parsed) = Return PNone).
Proof.
  intros Ht He _ _ trace. split; [| split].
  - intros e H. rewrite (calculate_evaluator_raises _ _ _ _ _ Ht He e H). split.
    + reflexivity.
    + intros Hc. cbn [printed fst]. rewrite Hc. reflexivity.
  - intros v text H F.
    rewrite (calculate_evaluator_returns _ _ _ _ _ Ht He v H), F. reflexivity.
  - intros v e H F.
    rewrite (calculate_evaluator_returns _ _ _ _ _ Ht He v H), F. reflexivity.
Qed.

Lemma calculate_rejected_expression_witness :
  outcome (calculate simple_eval_sample repr_sample (calculator_request "sqrt(25)"))
  = Return PNone
  /\ printed (calculate simple_eval_sample repr_sample (calculator_request "sqrt(25)"))
     = [ "Calling tool: calculator"; "Expression: sqrt(25)";
         "Error: Could not evaluate expression" ].
Proof.
  destruct (calculate_rejected_expression simple_eval_sample repr_sample
              (calculator_request "sqrt(25)") (PStr "calculator")
              (PStr "sqrt(25)") eq_refl eq_refl eq_refl eq_refl) as [H _].
  destruct (H (mkExn InvalidExpression
                 "Function 'sqrt' not defined, for expression 'sqrt(25)'.")
              eq_refl) as [Ho Hp].
  split.
  - exact Ho.
  - exact (Hp eq_refl).
Defined.

(** C1, counterexample.  [int(5)] is a function call, outside the
    arithmetic grammar; simpleeval evaluates it, and [calculate] returns a
    numeric result string. *)
Lemma calculate_function_call_evaluated :
  in_arith_grammar "int(5)" = false
  /\ calculate simple_eval_sample repr_sample (calculator_request "int(5)")
     = ([ "Calling tool: calculator"; "Expression: int(5)" ],
        Return (PStr "Result: 5.00")).
Proof. split; reflexivity. Qed.




(** ** The unit converter *)

Lemma str_app_assoc (a b c : string) : (a ++ b) ++ c = a ++ b ++ c.
Proof. induction a as [| x a IH]; cbn; [| rewrite IH]; reflexivity. Qed.

Lemma has_char_app (c : ascii) (a b : string) :
  has_char c (a ++ b) = has_char c a || has_char c b.
Proof.
  induction a as [| x a IH]; cbn.
  - reflexivity.
  - rewrite IH. apply orb_assoc.
Qed.

(** The key [from_unit + '_' + to_unit] determines the two units when the
    units of the table have no underscore. *)
Lemma concat_key_inj (a b f t : string) :
  has_char "_" a = false -> has_char "_" b = false ->
  (f ++ "_") ++ t = a ++ "_" ++ b -> f = a /\ t = b.
Proof.
  revert f. induction a as [| x a IH]; intros f Ha Hb E.
  - destruct f as [| c f]; cbn in E.
    + injection E as E. auto.
    + injection E as Ec E. subst b.
      rewrite !has_char_app in Hb. cbn in Hb.
      rewrite orb_true_r in Hb. discriminate Hb.
  - cbn in Ha. apply orb_false_elim in Ha as [Hx Ha].
    destruct f as [| c f]; cbn in E.
    + injection E as Ec _. subst x. discriminate Hx.
    + injection E as Ec E. subst c.
      destruct (IH f Ha Hb E) as [-> ->]. auto.
Qed.

Lemma key_eqb (a b key f t : string) :
  key = a ++ "_" ++ b ->
  has_char "_" a = false -> has_char "_" b = false ->
  String.eqb ((f ++ "_") ++ t) key = String.eqb f a && String.eqb t b.
Proof.
  intros -> Ha Hb.
  destruct (String.eqb_spec ((f ++ "_") ++ t) (a ++ "_" ++ b)) as [E | N].
  - destruct (concat_key_inj a b f t Ha Hb E) as [-> ->].
    rewrite !String.eqb_refl. reflexivity.
  - destruct (String.eqb_spec f a) as [-> |]; [| reflexivity].
    destruct (String.eqb_spec t b) as [-> |]; [| reflexivity].
    exfalso. apply N. apply str_app_assoc.
Qed.

Lemma float_of_int_9 : float_of_int 9 = Return 9%float.
Proof. vm_compute. reflexivity. Qed.

Lemma float_of_int_5 : float_of_int 5 = Return 5%float.
Proof. vm_compute. reflexivity. Qed.

Lemma float_of_int_32 : float_of_int 32 = Return 32%float.
Proof. vm_compute. reflexivity. Qed.

Lemma float_5_nonzero : (5 =? 0)%float = false.
Proof. vm_compute. reflexivity. Qed.

Lemma float_9_nonzero : (9 =? 0)%float = false.
Proof. vm_compute. reflexivity. Qed.

Section ConvertFacts.

Variable repr_ext : PyVal -> string.
Variables parsed tool value : PyVal.
Variables from_unit to_unit : string.
Hypothesis Htool : getitem parsed "tool" = Return tool.
Hypothesis Hvalue : getitem parsed "value" = Return value.
Hypothesis Hfrom : getitem parsed "from_unit" = Return (PStr from_unit).
Hypothesis Hto : getitem parsed "to_unit" = Return (PStr to_unit).

Let trace : list string :=
  [ "Calling tool: " ++ py_str repr_ext tool;
    "Converting : " ++ py_str repr_ext value ++ " " ++ from_unit ++ " to "
      ++ to_unit ].

(** The end of [convert] once [new_value] is computed. *)
Let finish (new_value : Outcome PyVal) : M PyVal :=
  v <- lift new_value ;;
  text <- lift (format_2f v) ;;
  ret (PStr ("Result : " ++ py_str repr_ext value ++ " " ++ from_unit
               ++ " = " ++ text ++ " " ++ to_unit)).

Let is_pair (a b : string) : bool :=
  String.eqb from_unit a && String.eqb to_unit b.

(** [convert] with the key comparison read on the two units. *)
Lemma convert_by_pair :
  convert repr_ext parsed
  = (print ("Calling tool: " ++ py_str repr_ext tool) ;;;
     print ("Converting : " ++ py_str repr_ext value ++ " " ++ from_unit
              ++ " to " ++ to_unit) ;;;
     if is_pair "km" "miles" then finish (mul value (PFloat 0.621371))
     else if is_pair "miles" "km" then finish (mul value (PFloat 1.60934))
     else if is_pair "kg" "lbs" then finish (mul value (PFloat 2.20462))
     else if is_pair "lbs" "kg" then finish (mul value (PFloat 0.453592))
     else if is_pair "celsius" "fahrenheit" then
       finish (a <~ mul value (PInt 9) ;; b <~ truediv a (PInt 5) ;;
               add b (PInt 32))
     else if is_pair "fahrenheit" "celsius" then
       finish (a <~ sub value (PInt 32) ;; b <~ mul a (PInt 5) ;;
               truediv b (PInt 9))
     else
       print ("Error: Unsupported conversion — " ++ from_unit ++ " to "
                ++ to_unit) ;;;
       ret PNone).
Proof.
  unfold convert. rewrite Htool, Hvalue, Hfrom, Hto.
  rewrite !bind_lift_return.
  apply bind_print_cong. apply bind_print_cong.
  cbn [py_str add as_num obind]. rewrite bind_lift_return.
  cbn [eq_str]. unfold is_pair.
  rewrite (key_eqb "km" "miles" "km_miles" from_unit to_unit) by reflexivity.
  rewrite (key_eqb "miles" "km" "miles_km" from_unit to_unit) by reflexivity.
  rewrite (key_eqb "kg" "lbs" "kg_lbs" from_unit to_unit) by reflexivity.
  rewrite (key_eqb "lbs" "kg" "lbs_kg" from_unit to_unit) by reflexivity.
  rewrite (key_eqb "celsius" "fahrenheit" "celsius_fahrenheit"
             from_unit to_unit) by reflexivity.
  rewrite (key_eqb "fahrenheit" "celsius" "fahrenheit_celsius"
             from_unit to_unit) by reflexivity.
  reflexivity.
Qed.

End ConvertFacts.

(** The arithmetic of the two temperature formulas on a float. *)
Lemma celsius_to_fahrenheit_float (x : float) :
  (a <~ mul (PFloat x) (PInt 9) ;; b <~ truediv a (PInt 5) ;; add b (PInt 32))
  = Return (PFloat (x * 9 / 5 + 32)).
Proof.
  unfold mul, truediv, add. cbn [as_num to_float obind].
  rewrite float_of_int_9. cbn [as_num to_float obind].
  rewrite float_of_int_5. cbn [as_num to_float obind].
  rewrite float_5_nonzero. cbn [as_num to_float obind].
  rewrite float_of_int_32. reflexivity.
Qed.

Lemma fahrenheit_to_celsius_float (x : float) :
  (a <~ sub (PFloat x) (PInt 32) ;; b <~ mul a (PInt 5) ;; truediv b (PInt 9))
  = Return (PFloat ((x - 32) * 5 / 9)).
Proof.
  unfold mul, truediv, sub. cbn [as_num to_float obind].
  rewrite float_of_int_32. cbn [as_num to_float obind].
  rewrite float_of_int_5. cbn [as_num to_float obind].
  rewrite float_of_int_9. cbn [as_num to_float obind].
  rewrite float_9_nonzero. reflexivity.
Qed.

(** [convert] on a float value is the conversion table of the
    specification, looked up with the two units as they are written. *)
Lemma convert_float_value
  (repr_ext : PyVal -> string) (parsed tool : PyVal) (x : float)
  (from_unit to_unit : string) :
  getitem parsed "tool" = Return tool ->
  getitem parsed "value" = Return (PFloat x) ->
  getitem parsed "from_unit" = Return (PStr from_unit) ->
  getitem parsed "to_unit" = Return (PStr to_unit) ->
  convert repr_ext parsed
  = match conversion_table from_unit to_unit with
    | Some formula =>
        ([ "Calling tool: " ++ py_str repr_ext tool;
           "Converting : " ++ repr_ext (PFloat x) ++ " " ++ from_unit ++ " to "
             ++ to_unit ],
         Return (PStr ("Result : " ++ repr_ext (PFloat x) ++ " " ++ from_unit
                         ++ " = " ++ format_2f_float (formula x) ++ " "
                         ++ to_unit)))
    | None =>
        ([ "Calling tool: " ++ py_str repr_ext tool;
           "Converting : " ++ repr_ext (PFloat x) ++ " " ++ from_unit ++ " to "
             ++ to_unit;
           "Error: Unsupported conversion — " ++ from_unit ++ " to " ++ to_unit ],
         Return PNone)
    end.
Proof.
  intros Ht Hv Hf Hu.
  rewrite (convert_by_pair repr_ext parsed tool (PFloat x) from_unit to_unit
             Ht Hv Hf Hu).
  unfold conversion_table.
  rewrite celsius_to_fahrenheit_float, fahrenheit_to_celsius_float.
  repeat match goal with
         | |- context [if ?a && ?b then _ else _] =>
             destruct (a && b); [run; reflexivity |]
         end.
  run. reflexivity.
Qed.

(** A pair of units that is not in the table as it is written is
    unsupported, whatever the value. *)
Lemma convert_unlisted_pair
  (repr_ext : PyVal -> string) (parsed tool value : PyVal)
  (from_unit to_unit : string) :
  getitem parsed "tool" = Return tool ->
  getitem parsed "value" = Return value ->
  getitem parsed "from_unit" = Return (PStr from_unit) ->
  getitem parsed "to_unit" = Return (PStr to_unit) ->
  conversion_table from_unit to_unit = None ->
  convert repr_ext parsed
  = ([ "Calling tool: " ++ py_str repr_ext tool;
       "Converting : " ++ py_str repr_ext value ++ " " ++ from_unit ++ " to "
         ++ to_unit;
       "Error: Unsupported conversion — " ++ from_unit ++ " to " ++ to_unit ],
     Return PNone).
Proof.
  intros Ht Hv Hf Hu Hn.
  rewrite (convert_by_pair repr_ext parsed tool value from_unit to_unit
             Ht Hv Hf Hu).
  unfold conversion_table in Hn.
  repeat match type of Hn with
         | (if ?a && ?b then _ else _) = None =>
             destruct (a && b); [discriminate Hn |]
         end.
  run. reflexivity.
Qed.

Lemma float_of_int_raises (n : Z) (e : Exn) :
  float_of_int n = Raise e -> exn_class e = OverflowError.
Proof.
  unfold float_of_int.
  destruct (2 ^ 1024 - 2 ^ 970 <=? Z.abs n)%Z; intros H; [| discriminate H].
  injection H as <-. reflexivity.
Qed.

Lemma int_truediv_raises (a b : Z) (e : Exn) :
  b <> 0%Z -> int_truediv a b = Raise e -> exn_class e = OverflowError.
Proof.
  intros Hb. unfold int_truediv.
  destruct (Z.eqb_spec b 0); [contradiction |].
  destruct (a =? 0)%Z; [discriminate |].
  destruct ((Z.abs a <? 2 ^ 53)%Z && (Z.abs b <? 2 ^ 53)%Z); [discriminate |].
  cbv zeta.
  match goal with
  | |- match ?x with _ => _ end = _ -> _ => destruct x
  end; intros H; try discriminate H.
  injection H as <-. reflexivity.
Qed.

Lemma float_of_int_in_range (n : Z) :
  (Z.abs n < 2 ^ 1024 - 2 ^ 970)%Z ->
  float_of_int n = Return (SF2Prim (binary_normalize prec emax n 0 false)).
Proof.
  intros H. unfold float_of_int.
  destruct (Z.leb_spec (2 ^ 1024 - 2 ^ 970) (Z.abs n)); [lia | reflexivity].
Qed.

Lemma float_of_int_past_range (n : Z) :
  (2 ^ 1024 - 2 ^ 970 <= Z.abs n)%Z ->
  float_of_int n = Raise (mkExn OverflowError "int too large to convert to float").
Proof.
  intros H. unfold float_of_int.
  destruct (Z.leb_spec (2 ^ 1024 - 2 ^ 970) (Z.abs n)); [reflexivity | lia].
Qed.

(** The quotient of an integer of 53 bits at most by 5 or by 9 is the
    quotient of the floats. *)
Lemma int_truediv_small (a b : Z) :
  b = 5%Z \/ b = 9%Z ->
  (Z.abs a < 2 ^ 53)%Z ->
  int_truediv a b
  = Return (SF2Prim (binary_normalize prec emax a 0 false)
            / SF2Prim (binary_normalize prec emax b 0 false))%float.
Proof.
  intros Hb Ha. unfold int_truediv.
  destruct (Z.eqb_spec a 0) as [-> | _].
  - destruct Hb as [-> | ->]; vm_compute; reflexivity.
  - apply Z.ltb_lt in Ha. rewrite Ha.
    destruct Hb as [-> | ->]; reflexivity.
Qed.

(** The two temperature formulas on an integer, or on a bool, which is an
    integer: the product is exact and the quotient is that of [int_truediv]. *)
Lemma celsius_to_fahrenheit_int (value : PyVal) (n : Z) :
  as_num value = Some (NInt n) ->
  (a <~ mul value (PInt 9) ;; b <~ truediv a (PInt 5) ;; add b (PInt 32))
  = match int_truediv (n * 9) 5 with
    | Return q => Return (PFloat (q + 32))
    | Raise e => Raise e
    end.
Proof.
  intros H. unfold mul, truediv, add. rewrite H. cbn [as_num to_float obind].
  destruct (int_truediv (n * 9) 5) as [q | e]; cbn [as_num to_float obind];
    [| reflexivity].
  rewrite float_of_int_32. reflexivity.
Qed.

Lemma fahrenheit_to_celsius_int (value : PyVal) (n : Z) :
  as_num value = Some (NInt n) ->
  (a <~ sub value (PInt 32) ;; b <~ mul a (PInt 5) ;; truediv b (PInt 9))
  = match int_truediv ((n - 32) * 5) 9 with
    | Return q => Return (PFloat q)
    | Raise e => Raise e
    end.
Proof.
  intros H. unfold mul, truediv, sub. rewrite H. cbn [as_num to_float obind].
  destruct (int_truediv ((n - 32) * 5) 9) as [q | e]; reflexivity.
Qed.

Lemma conversion_table_unlisted (from_unit to_unit : string) :
  ~ In (from_unit, to_unit)
      [ ("km", "miles"); ("miles", "km"); ("kg", "lbs"); ("lbs", "kg");
        ("celsius", "fahrenheit"); ("fahrenheit", "celsius") ] ->
  conversion_table from_unit to_unit = None.
Proof.
  intros Hn. unfold conversion_table.
  repeat match goal with
         | |- context [if String.eqb ?a ?b && String.eqb ?c ?d then _ else _] =>
             destruct (String.eqb_spec a b) as [-> |];
             [destruct (String.eqb_spec c d) as [-> |];
              [exfalso; apply Hn; cbn; tauto |] |];
             cbn [andb]
         end.
  all: reflexivity.
Qed.

Section ConversionFacts.

Variable repr_ext : PyVal -> string.
Variables parsed tool value : PyVal.
Variables from_unit to_unit : string.
Hypothesis Htool : getitem parsed "tool" = Return tool.
Hypothesis Hvalue : getitem parsed "value" = Return value.
Hypothesis Hfrom : getitem parsed "from_unit" = Return (PStr from_unit).
Hypothesis Hto : getitem parsed "to_unit" = Return (PStr to_unit).

Let trace : list string :=
  [ "Calling tool: " ++ py_str repr_ext tool;
    "Converting : " ++ py_str repr_ext value ++ " " ++ from_unit ++ " to "
      ++ to_unit ].

Let is_pair (a b : string) : bool :=
  String.eqb from_unit a && String.eqb to_unit b.

(** [convert] for a pair of the table, from the value of its formula. *)
Lemma convert_formula (new_value : Outcome PyVal) :
  (if is_pair "km" "miles" then mul value (PFloat 0.621371)
   else if is_pair "miles" "km" then mul value (PFloat 1.60934)
   else if is_pair "kg" "lbs" then mul value (PFloat 2.20462)
   else if is_pair "lbs" "kg" then mul value (PFloat 0.453592)
   else if is_pair "celsius" "fahrenheit" then
     a <~ mul value (PInt 9) ;; b <~ truediv a (PInt 5) ;; add b (PInt 32)
   else a <~ sub value (PInt 32) ;; b <~ mul a (PInt 5) ;; truediv b (PInt 9))
  = new_value ->
  conversion_table from_unit to_unit <> None ->
  convert repr_ext parsed
  = match new_value with
    | Return v =>
        match format_2f v with
        | Return text =>
            (trace,
             Return (PStr ("Result : " ++ py_str repr_ext value ++ " "
                             ++ from_unit ++ " = " ++ text ++ " " ++ to_unit)))
        | Raise e => (trace, Raise e)
        end
    | Raise e => (trace, Raise e)
    end.
Proof.
  intros <- Hc.
  rewrite (convert_by_pair repr_ext parsed tool value from_unit to_unit
             Htool Hvalue Hfrom Hto).
  unfold conversion_table in Hc. unfold is_pair.
  repeat match goal with
         | |- context [if ?a && ?b then _ else _] => destruct (a && b)
         end; try (exfalso; apply Hc; reflexivity).
  all: run;
    match goal with
    | |- context [lift ?nv] => destruct nv as [v | e]; run; [| reflexivity]
    end;
    destruct (format_2f v) as [text | e]; run; reflexivity.
Qed.

End ConversionFacts.

(** C5, as the code has it.  [convert] implements the six conversions of
    the table with their formulas, in float arithmetic.  On a float the
    four factors multiply the value and the two temperature formulas are
    computed in floats.  An integer (or a bool, which is one) below the
    float range is rounded to the nearest float before a factor multiplies
    it, and the conversion of an integer past that range raises
    [OverflowError] after the trace lines.  In the temperature formulas
    the product of an integer with 9 or 5 is exact and its quotient by 5 or
    9 is the integer division of Python, which raises [OverflowError] past
    the float range; for a product of 53 bits at most this quotient is the
    quotient of the floats.  The converted value is written with the [.2f]
    format: exactly two decimals, the nearest hundredth, when it is a
    finite float, and [inf], [-inf] or [nan] when it is not.  Every other
    pair of unit strings is reported as unsupported and gives [None].  And
    100 km are 62.14 miles, 100 celsius are 212.00 fahrenheit, 212
    fahrenheit are 100.00 celsius. *)
Theorem convert_six_conversions
  (repr_ext : PyVal -> string) (parsed tool value : PyVal)
  (from_unit to_unit : string) :
  getitem parsed "tool" = Return tool ->
  getitem parsed "value" = Return value ->
  getitem parsed "from_unit" = Return (PStr from_unit) ->
  getitem parsed "to_unit" = Return (PStr to_unit) ->
  printable tool = true ->
  printable value = true ->
  utf8 from_unit = true ->
  utf8 to_unit = true ->
  let trace :=
    [ "Calling tool: " ++ py_str repr_ext tool;
      "Converting : " ++ py_str repr_ext value ++ " " ++ from_unit ++ " to "
        ++ to_unit ] in
  let result := convert repr_ext parsed in
  let success (y : float) : Prop :=
    exists text,
      result
      = (trace,
         Return (PStr ("Result : " ++ py_str repr_ext value ++ " " ++ from_unit
                         ++ " = " ++ text ++ " " ++ to_unit)))
      /\ text = format_2f_float y
      /\ (is_finite y = true -> two_decimals_of y text)
      /\ (is_finite y = false ->
          text = "inf" \/ text = "-inf" \/ text = "nan") in
  let nearest_float (n : Z) : float :=
    SF2Prim (binary_normalize prec emax n 0 false) in
  let by_factor (c : float) : Prop :=
    (forall x, value = PFloat x -> success (x * c)%float)
    /\ (forall n, as_num value = Some (NInt n) ->
                  (Z.abs n < 2 ^ 1024 - 2 ^ 970)%Z ->
                  success (nearest_float n * c)%float)
    /\ (forall n, as_num value = Some (NInt n) ->
                  (2 ^ 1024 - 2 ^ 970 <= Z.abs n)%Z ->
                  result
                  = (trace,
                     Raise (mkExn OverflowError
                              "int too large to convert to float"))) in
  let by_quotient (a b : Z) (rest : float -> float) : Prop :=
    match int_truediv a b with
    | Return q => success (rest q)
    | Raise e => result = (trace, Raise e) /\ exn_class e = OverflowError
    end
    /\ ((Z.abs a < 2 ^ 53)%Z ->
        success (rest (nearest_float a / nearest_float b)%float)) in
  (from_unit = "km" -> to_unit = "miles" -> by_factor 0.621371%float)
  /\ (from_unit = "miles" -> to_unit = "km" -> by_factor 1.60934%float)
  /\ (from_unit = "kg" -> to_unit = "lbs" -> by_factor 2.20462%float)
  /\ (from_unit = "lbs" -> to_unit = "kg" -> by_factor 0.453592%float)
  /\ (from_unit = "celsius" -> to_unit = "fahrenheit" ->
      (forall x, value = PFloat x -> success (x * 9 / 5 + 32)%float)
      /\ (forall n, as_num value = Some (NInt n) ->
                    by_quotient (n * 9)%Z 5%Z (fun q => q + 32)%float))
  /\ (from_unit = "fahrenheit" -> to_unit = "celsius" ->
      (forall x, value = PFloat x -> success ((x - 32) * 5 / 9)%float)
      /\ (forall n, as_num value = Some (NInt n) ->
                    by_quotient ((n - 32) * 5)%Z 9%Z (fun q => q)))
  /\ (~ In (from_unit, to_unit)
          [ ("km", "miles"); ("miles", "km"); ("kg", "lbs"); ("lbs", "kg");
            ("celsius", "fahrenheit"); ("fahrenheit", "celsius") ] ->
      result
      = (app trace
           [ "Error: Unsupported conversion — " ++ from_unit ++ " to "
               ++ to_unit ],
         Return PNone))
  /\ (nearest_float 5%Z = 5%float /\ nearest_float 9%Z = 9%float)
  /\ convert repr_ext (converter_request (PInt 100) "km" "miles")
     = ([ "Calling tool: converter"; "Converting : 100 km to miles" ],
        Return (PStr "Result : 100 km = 62.14 miles"))
  /\ convert repr_ext (converter_request (PInt 100) "celsius" "fahrenheit")
     = ([ "Calling tool: converter"; "Converting : 100 celsius to fahrenheit" ],
        Return (PStr "Result : 100 celsius = 212.00 fahrenheit"))
  /\ convert repr_ext (converter_request (PInt 212) "fahrenheit" "celsius")
     = ([ "Calling tool: converter"; "Converting : 212 fahrenheit to celsius" ],
        Return (PStr "Result : 212 fahrenheit = 100.00 celsius"))
  /\ convert repr_ext
       (converter_request (PInt (10 ^ 20)) "celsius" "fahrenheit")
     = ([ "Calling tool: converter";
          "Converting : 100000000000000000000 celsius to fahrenheit" ],
        Return (PStr "Result : 100000000000000000000 celsius = 180000000000000000000.00 fahrenheit"))
  /\ convert repr_ext
       (converter_request (PInt (10 ^ 400)) "celsius" "fahrenheit")
     = ([ "Calling tool: converter";
          "Converting : " ++ str_int (10 ^ 400) ++ " celsius to fahrenheit" ],
        Raise (mkExn OverflowError
                 "integer division result too large for a float")).
Proof.
  intros Ht Hv Hf Hu _ _ _ _ trace result success nearest_float by_factor
    by_quotient.
  assert (S : forall y,
             convert repr_ext parsed
             = (trace,
                Return (PStr ("Result : " ++ py_str repr_ext value ++ " "
                                ++ from_unit ++ " = " ++ format_2f_float y ++ " "
                                ++ to_unit))) ->
             success y).
  { intros y E. exists (format_2f_float y).
    split; [exact E | split; [reflexivity | split]].
    - apply format_2f_float_two_decimals.
    - apply format_2f_float_not_finite. }
  assert (F : forall c : float,
             convert repr_ext parsed
             = match mul value (PFloat c) with
               | Return v =>
                   match format_2f v with
                   | Return text =>
                       (trace,
                        Return (PStr ("Result : " ++ py_str repr_ext value
                                        ++ " " ++ from_unit ++ " = " ++ text
                                        ++ " " ++ to_unit)))
                   | Raise e => (trace, Raise e)
                   end
               | Raise e => (trace, Raise e)
               end ->
             by_factor c).
  { intros c C. split; [| split].
    - intros x ->. apply S. exact C.
    - intros n Hn Hr. apply S. rewrite C. unfold mul. rewrite Hn.
      cbn [as_num to_float obind].
      rewrite (float_of_int_in_range n Hr). reflexivity.
    - intros n Hn Hr. unfold result. rewrite C. unfold mul. rewrite Hn.
      cbn [as_num to_float obind].
      rewrite (float_of_int_past_range n Hr). reflexivity. }
  assert (Q : forall (a b : Z) (rest : float -> float),
             b = 5%Z \/ b = 9%Z ->
             convert repr_ext parsed
             = match int_truediv a b with
               | Return q =>
                   (trace,
                    Return (PStr ("Result : " ++ py_str repr_ext value
                                    ++ " " ++ from_unit ++ " = "
                                    ++ format_2f_float (rest q)
                                    ++ " " ++ to_unit)))
               | Raise e => (trace, Raise e)
               end ->
             by_quotient a b rest).
  { intros a b rest Hb C. split.
    - destruct (int_truediv a b) as [q | e] eqn:D.
      + apply S. exact C.
      + split; [exact C |]. apply (int_truediv_raises a b e); [| exact D].
        destruct Hb as [-> | ->]; discriminate.
    - intros Ha. apply S. rewrite C, (int_truediv_small a b Hb Ha).
      reflexivity. }
  pose proof (convert_formula repr_ext parsed tool value from_unit to_unit
                Ht Hv Hf Hu) as E.
  do 4 (split;
        [intros -> ->; apply F;
         exact (E _ eq_refl ltac:(discriminate)) |]).
  split; [| split; [| split; [| split]]].
  - intros -> ->.
    pose proof (E _ eq_refl ltac:(discriminate)) as E'.
    cbn [String.eqb Ascii.eqb Bool.eqb andb] in E'.
    split.
    + intros x ->. apply S. rewrite E', celsius_to_fahrenheit_float.
      reflexivity.
    + intros n Hn. apply Q; [left; reflexivity |].
      rewrite E', (celsius_to_fahrenheit_int value n Hn).
      destruct (int_truediv (n * 9) 5); reflexivity.
  - intros -> ->.
    pose proof (E _ eq_refl ltac:(discriminate)) as E'.
    cbn [String.eqb Ascii.eqb Bool.eqb andb] in E'.
    split.
    + intros x ->. apply S. rewrite E', fahrenheit_to_celsius_float.
      reflexivity.
    + intros n Hn. apply Q; [right; reflexivity |].
      rewrite E', (fahrenheit_to_celsius_int value n Hn).
      destruct (int_truediv ((n - 32) * 5) 9); reflexivity.
  - intros Hl.
    exact (convert_unlisted_pair repr_ext parsed tool value from_unit to_unit
             Ht Hv Hf Hu (conversion_table_unlisted from_unit to_unit Hl)).
  - split; vm_compute; reflexivity.
  - repeat split; vm_compute; reflexivity.
Qed.

Lemma convert_six_conversions_witness :
  (exists text,
      convert repr_sample (converter_request (PInt 32) "fahrenheit" "celsius")
      = ([ "Calling tool: converter"; "Converting : 32 fahrenheit to celsius" ],
         Return (PStr ("Result : 32 fahrenheit = " ++ text ++ " celsius")))
      /\ text = "0.00")
  /\ (exists text,
         convert repr_sample (converter_request (PFloat 100) "km" "miles")
         = ([ "Calling tool: converter"; "Converting : 100.0 km to miles" ],
            Return (PStr ("Result : 100.0 km = " ++ text ++ " miles")))
         /\ two_decimals_of (100 * 0.621371) text).
Proof.
  split.
  - destruct (convert_six_conversions repr_sample
                (converter_request (PInt 32) "fahrenheit" "celsius")
                (PStr "converter") (PInt 32) "fahrenheit" "celsius"
                eq_refl eq_refl eq_refl eq_refl eq_refl eq_refl eq_refl eq_refl)
      as (_ & _ & _ & _ & _ & H & _).
    destruct (proj2 (proj2 (H eq_refl eq_refl) 32%Z eq_refl) eq_refl)
      as (text & E & T & _).
    exists text. split; [exact E | exact T].
  - destruct (convert_six_conversions repr_sample
                (converter_request (PFloat 100) "km" "miles")
                (PStr "converter") (PFloat 100) "km" "miles"
                eq_refl eq_refl eq_refl eq_refl eq_refl eq_refl eq_refl eq_refl)
      as (H & _).
    destruct (proj1 (H eq_refl eq_refl) 100%float eq_refl)
      as (text & E & _ & T & _).
    exists text. split; [exact E | exact (T eq_refl)].
Defined.

(** C5, counterexample.  The float [1e308] is a number of kilograms that
    JSON can write; its product by the factor of the table is past the
    largest float, and the converted value that [convert] writes is [inf],
    which has no decimals. *)
Lemma convert_overflowing_product :
  convert repr_wide (converter_request (PFloat 1e308) "kg" "lbs")
  = ([ "Calling tool: converter"; "Converting : 1e+308 kg to lbs" ],
     Return (PStr "Result : 1e+308 kg = inf lbs"))
  /\ is_finite 1e308 = true
  /\ (1e308 * 2.20462)%float = infinity
  /\ ~ two_decimals_of (1e308 * 2.20462) "inf".
Proof.
  split; [vm_compute; reflexivity |].
  split; [vm_compute; reflexivity |].
  split; [vm_compute; reflexivity |].
  intros (neg & ip & d1 & d2 & _ & _ & _ & _ & H).
  vm_compute in H. exact H.
Qed.

(** C6, as the code has it.  The lookup compares the units as they are
    written: a pair that is one of the six only up to the case of its
    letters is reported as unsupported, and [convert] returns [None]. *)
Theorem convert_units_case_sensitive
  (repr_ext : PyVal -> string) (parsed tool value : PyVal)
  (from_unit to_unit : string) :
  getitem parsed "tool" = Return tool ->
  getitem parsed "value" = Return value ->
  getitem parsed "from_unit" = Return (PStr from_unit) ->
  getitem parsed "to_unit" = Return (PStr to_unit) ->
  conversion_table (str_lower from_unit) (str_lower to_unit) <> None ->
  conversion_table from_unit to_unit = None ->
  convert repr_ext parsed
  = ([ "Calling tool: " ++ py_str repr_ext tool;
       "Converting : " ++ py_str repr_ext value ++ " " ++ from_unit ++ " to "
         ++ to_unit;
       "Error: Unsupported conversion — " ++ from_unit ++ " to " ++ to_unit ],
     Return PNone).
Proof.
  intros Ht Hv Hf Hu _ Hn.
  exact (convert_unlisted_pair repr_ext parsed tool value from_unit to_unit
           Ht Hv Hf Hu Hn).
Qed.

Lemma convert_units_case_sensitive_witness :
  convert repr_sample (converter_request (PInt 100) "KM" "Miles")
  = ([ "Calling tool: converter"; "Converting : 100 KM to Miles";
       "Error: Unsupported conversion — KM to Miles" ],
     Return PNone).
Proof.
  apply (convert_units_case_sensitive repr_sample
           (converter_request (PInt 100) "KM" "Miles") (PStr "converter")
           (PInt 100) "KM" "Miles");
    [reflexivity | reflexivity | reflexivity | reflexivity
    | discriminate | reflexivity].
Defined.

(** C6, counterexample.  [KM] and [Miles] are [km] and [miles] up to the
    case of the letters, a pair of the table, and the conversion of 100 KM
    to Miles is refused. *)
Lemma convert_uppercase_units_unsupported :
  str_lower "KM" = "km" /\ str_lower "Miles" = "miles"
  /\ (exists formula, conversion_table "km" "miles" = Some formula)
  /\ convert repr_sample (converter_request (PInt 100) "KM" "Miles")
     = ([ "Calling tool: converter"; "Converting : 100 KM to Miles";
          "Error: Unsupported conversion — KM to Miles" ],
        Return PNone).
Proof.
  split; [reflexivity | split; [reflexivity | split; [| reflexivity]]].
  eexists. reflexivity.
Qed.

(** ** The registry and the algorithm invoker *)

(** For every entry of the registry, the count computed from its
    description is the arity that the specification declares. *)
Lemma registry_entry_arity (name : string) (f : Callable) (desc : string) :
  registry_get ALGORITHM_TOOLS name = Some (f, desc) ->
  exists a, declared_arity name = Some a /\ expected_inputs desc = Return a.
Proof.
  unfold registry_get, ALGORITHM_TOOLS, declared_arity. intros H.
  repeat match type of H with
         | (if String.eqb name ?k then _ else _) = _ =>
             destruct (String.eqb name k);
             [injection H as <- <-; eexists; split; reflexivity |]
         end.
  discriminate H.
Qed.

(** Every operation of the specification's table is registered. *)
Lemma declared_arity_registered (name : string) (a : Z) :
  declared_arity name = Some a ->
  exists f desc,
    registry_get ALGORITHM_TOOLS name = Some (f, desc)
    /\ expected_inputs desc = Return a.
Proof.
  unfold registry_get, ALGORITHM_TOOLS, declared_arity. intros H.
  repeat match type of H with
         | (if String.eqb name ?k then _ else _) = _ =>
             destruct (String.eqb name k);
             [injection H as <-; do 2 eexists; split; reflexivity |]
         end.
  discriminate H.
Qed.

Section RunAlgorithmFacts.

Variable call : Callable -> list PyVal -> Outcome PyVal.
Variable repr_ext : PyVal -> string.
Variable tools : Registry.
Variable parsed : PyVal.
Variable operation : string.
Variable inputs : list PyVal.
Hypothesis Hoperation : getitem parsed "operation" = Return (PStr operation).
Hypothesis Hinputs : getitem parsed "inputs" = Return (PList inputs).

Lemma run_algorithm_in_cases :
  run_algorithm_in call repr_ext tools parsed
  = match registry_get tools operation with
    | None => ([ "Error: Unknown operation — " ++ operation ], Return PNone)
    | Some (func, desc) =>
        match expected_inputs desc with
        | Raise e => ([], Raise e)
        | Return expected =>
            if (Z.of_nat (length inputs) =? expected)%Z then
              match call func inputs with
              | Return result =>
                  ([ "Performing " ++ operation ++ " on "
                       ++ repr_ext (PList inputs) ],
                   Return (PStr ("Result: " ++ operation ++ "("
                                   ++ join ", " (map (py_str repr_ext) inputs)
                                   ++ ") = " ++ py_str repr_ext result)))
              | Raise e =>
                  ([ "Performing " ++ operation ++ " on "
                       ++ repr_ext (PList inputs);
                     "Error: " ++ exn_msg e ],
                   Return PNone)
              end
            else
              ([ "Error: " ++ operation ++ " expects " ++ str_int expected
                   ++ " input(s), got " ++ str_int (Z.of_nat (length inputs)) ],
               Return PNone)
        end
    end.
Proof.
  unfold run_algorithm_in. rewrite Hoperation, Hinputs. run.
  cbn [registry_contains registry_getitem].
  destruct (registry_get tools operation) as [[func desc] |]; run;
    [| reflexivity].
  cbn [negb]. run.
  destruct (expected_inputs desc) as [expected | e]; run; [| reflexivity].
  cbn [len]. run.
  destruct (Z.of_nat (length inputs) =? expected)%Z; cbn [negb]; run;
    [| reflexivity].
  cbn [iterate py_str]. run.
  destruct (call func inputs) as [result | e]; run; reflexivity.
Qed.

End RunAlgorithmFacts.

Lemma run_algorithm_total
  (call : Callable -> list PyVal -> Outcome PyVal) (repr_ext : PyVal -> string)
  (parsed : PyVal) (operation : string) (inputs : list PyVal) :
  getitem parsed "operation" = Return (PStr operation) ->
  getitem parsed "inputs" = Return (PList inputs) ->
  exists out r,
    run_algorithm call repr_ext parsed = (out, Return r) /\ string_or_none r.
Proof.
  intros Ho Hi. unfold run_algorithm.
  rewrite (run_algorithm_in_cases call repr_ext ALGORITHM_TOOLS parsed
             operation inputs Ho Hi).
  destruct (registry_get ALGORITHM_TOOLS operation) as [[func desc] |] eqn:G.
  - destruct (registry_entry_arity operation func desc G) as (a & _ & ->).
    destruct (Z.of_nat (length inputs) =? a)%Z.
    + destruct (call func inputs) as [result | e];
        do 2 eexists; (split; [reflexivity |]); [right; eauto | left; reflexivity].
    + do 2 eexists. split; [reflexivity | left; reflexivity].
  - do 2 eexists. split; [reflexivity | left; reflexivity].
Qed.

(** C4, as the code has it.  The registry entries hold a function and a
    description string and no arity; the count that [run_algorithm] expects
    is computed from the description, one more than the commas between the
    brackets, and for every registered operation this count is the arity
    of the specification's table. *)
Theorem expected_inputs_from_description
  (name : string) (f : Callable) (desc : string) :
  registry_get ALGORITHM_TOOLS name = Some (f, desc) ->
  exists a piece,
    declared_arity name = Some a
    /\ index1 (split "[" desc) = Return piece
    /\ a = (count "," (rstrip "]" piece) + 1)%Z
    /\ expected_inputs desc = Return a.
Proof.
  intros H. destruct (registry_entry_arity name f desc H) as (a & Ha & He).
  unfold expected_inputs in *.
  destruct (index1 (split "[" desc)) as [piece | e]; [| discriminate He].
  cbn [obind] in He. injection He as He.
  exists a, piece.
  split; [exact Ha | split; [reflexivity | split; [symmetry; exact He |]]].
  cbn [obind]. rewrite He. reflexivity.
Qed.

Lemma expected_inputs_from_description_witness :
  exists a piece,
    declared_arity "nth_root" = Some a
    /\ index1 (split "[" "inputs: [n, root]") = Return piece
    /\ a = (count "," (rstrip "]" piece) + 1)%Z
    /\ expected_inputs "inputs: [n, root]" = Return a.
Proof.
  apply (expected_inputs_from_description "nth_root" lambda_nth_root
           "inputs: [n, root]").
  reflexivity.
Defined.

(** C4, counterexample.  The expected count is read off the description
    string at call time: with the description of [gcd] rewritten to name one
    input, the same call with the same function is performed instead of
    refused. *)
Lemma arity_follows_description :
  run_algorithm_in call_sample repr_sample
    [ ("gcd", (math_gcd, "inputs: [a, b]")) ] (algorithm_request "gcd" [PInt 21])
  = ([ "Error: gcd expects 2 input(s), got 1" ], Return PNone)
  /\ run_algorithm_in call_sample repr_sample
       [ ("gcd", (math_gcd, "inputs: [a]")) ] (algorithm_request "gcd" [PInt 21])
     = ([ "Performing gcd on [21]" ], Return (PStr "Result: gcd(21) = 21")).
Proof. split; reflexivity. Qed.

(** C7.  For a registered operation and a list of inputs whose length is
    not the declared arity, [run_algorithm] prints the expected and the
    actual count and returns [None]; the function of the operation is not
    called, the outcome being the same whatever the functions do. *)
Theorem run_algorithm_arity_mismatch
  (call : Callable -> list PyVal -> Outcome PyVal) (repr_ext : PyVal -> string)
  (parsed : PyVal) (operation : string) (inputs : list PyVal) (arity : Z) :
  getitem parsed "operation" = Return (PStr operation) ->
  getitem parsed "inputs" = Return (PList inputs) ->
  declared_arity operation = Some arity ->
  Z.of_nat (length inputs) <> arity ->
  run_algorithm call repr_ext parsed
  = ([ "Error: " ++ operation ++ " expects " ++ str_int arity
         ++ " input(s), got " ++ str_int (Z.of_nat (length inputs)) ],
     Return PNone)
  /\ (forall call', run_algorithm call' repr_ext parsed
                    = run_algorithm call repr_ext parsed).
Proof.
  intros Ho Hi Ha Hn.
  destruct (declared_arity_registered operation arity Ha) as (f & desc & G & E).
  assert (R : forall c, run_algorithm c repr_ext parsed
                        = ([ "Error: " ++ operation ++ " expects "
                               ++ str_int arity ++ " input(s), got "
                               ++ str_int (Z.of_nat (length inputs)) ],
                           Return PNone)).
  { intros c. unfold run_algorithm.
    rewrite (run_algorithm_in_cases c repr_ext ALGORITHM_TOOLS parsed
               operation inputs Ho Hi), G, E.
    apply Z.eqb_neq in Hn. rewrite Hn. reflexivity. }
  split.
  - apply R.
  - intros c. rewrite !R. reflexivity.
Qed.

Lemma run_algorithm_arity_mismatch_witness :
  run_algorithm call_sample repr_sample (algorithm_request "gcd" [PInt 21])
  = ([ "Error: gcd expects 2 input(s), got 1" ], Return PNone).
Proof.
  exact (proj1 (run_algorithm_arity_mismatch call_sample repr_sample
                  (algorithm_request "gcd" [PInt 21]) "gcd" [PInt 21] 2%Z
                  eq_refl eq_refl eq_refl ltac:(discriminate))).
Defined.

(** ** Handlers and requests with or without their fields *)

Lemma getitem_missing (d : list (string * PyVal)) (k : string) :
  dict_get d k = None -> raises KeyError (getitem (PDict d) k).
Proof. intros H. unfold getitem. rewrite H. reflexivity. Qed.

(** The outcome is a result string, [None], or an [OverflowError]. *)
Lemma convert_int_value
  (repr_ext : PyVal -> string) (parsed tool : PyVal) (n : Z)
  (from_unit to_unit : string) :
  getitem parsed "tool" = Return tool ->
  getitem parsed "value" = Return (PInt n) ->
  getitem parsed "from_unit" = Return (PStr from_unit) ->
  getitem parsed "to_unit" = Return (PStr to_unit) ->
  (exists r, outcome (convert repr_ext parsed) = Return r /\ string_or_none r)
  \/ raises OverflowError (outcome (convert repr_ext parsed)).
Proof.
  intros Ht Hv Hf Hu.
  rewrite (convert_by_pair repr_ext parsed tool (PInt n) from_unit to_unit
             Ht Hv Hf Hu).
  assert (L : forall c : float,
             (exists y, mul (PInt n) (PFloat c) = Return (PFloat y))
             \/ raises OverflowError (mul (PInt n) (PFloat c))).
  { intros c. unfold mul. cbn [as_num to_float obind].
    destruct (float_of_int n) as [y | e] eqn:E; cbn [obind].
    - left. eexists. reflexivity.
    - right. exact (float_of_int_raises n e E). }
  assert (D : forall a b c : Z,
             b <> 0%Z -> float_of_int c = Return (SF2Prim (binary_normalize prec emax c 0 false)) ->
             (exists y, (q <~ truediv (PInt a) (PInt b) ;; add q (PInt c))
                        = Return (PFloat y))
             \/ raises OverflowError
                  (q <~ truediv (PInt a) (PInt b) ;; add q (PInt c))).
  { intros a b c Hb Hc. unfold truediv. cbn [as_num to_float obind].
    destruct (int_truediv a b) as [y | e] eqn:E; cbn [obind].
    - left. unfold add. cbn [as_num to_float obind]. rewrite Hc.
      eexists. reflexivity.
    - right. exact (int_truediv_raises a b e Hb E). }
  assert (D' : forall a b : Z,
             b <> 0%Z ->
             (exists y, truediv (PInt a) (PInt b) = Return (PFloat y))
             \/ raises OverflowError (truediv (PInt a) (PInt b))).
  { intros a b Hb. unfold truediv. cbn [as_num to_float obind].
    destruct (int_truediv a b) as [y | e] eqn:E; cbn [obind].
    - left. eexists. reflexivity.
    - right. exact (int_truediv_raises a b e Hb E). }
  assert (F : forall nv : Outcome PyVal,
             (exists y, nv = Return (PFloat y)) \/ raises OverflowError nv ->
             forall l1 l2 (k : string -> PyVal),
               (exists r,
                   outcome (print l1 ;;; print l2 ;;;
                            v <- lift nv ;; text <- lift (format_2f v) ;;
                            ret (k text)) = Return r
                   /\ r = k (match nv with
                             | Return v =>
                                 match format_2f v with
                                 | Return text => text
                                 | Raise _ => EmptyString
                                 end
                             | Raise _ => EmptyString
                             end))
               \/ raises OverflowError
                    (outcome (print l1 ;;; print l2 ;;;
                              v <- lift nv ;; text <- lift (format_2f v) ;;
                              ret (k text)))).
  { intros nv [[y ->] | R] l1 l2 k.
    - left. run. cbn [format_2f]. run. eexists. split; reflexivity.
    - right. destruct nv as [v | e]; [contradiction |]. run. exact R. }
  repeat match goal with
         | |- context [if ?a && ?b then _ else _] => destruct (a && b)
         end.
  7: { left. run. exists PNone. split; [reflexivity | left; reflexivity]. }
  all: match goal with
       | |- context [lift ?nv] =>
           assert (N : (exists y, nv = Return (PFloat y))
                       \/ raises OverflowError nv)
       end.
  all: try (apply L).
  all: try (unfold mul at 1; cbn [as_num obind]; apply D;
            [discriminate | reflexivity]).
  all: try (unfold sub, mul; cbn [as_num obind]; apply D'; discriminate).
  all: match goal with
       | |- context [ret (PStr (?p ++ ?a ++ ?b ++ ?c ++ ?d ++ _ ++ ?e ++ ?g))] =>
           destruct (F _ N
                       ("Calling tool: " ++ py_str repr_ext tool)
                       ("Converting : " ++ py_str repr_ext (PInt n) ++ " "
                          ++ from_unit ++ " to " ++ to_unit)
                       (fun text => PStr (p ++ a ++ b ++ c ++ d ++ text ++ e ++ g)))
             as [(r & Hr & Er) | R]
       end.
  all: try (right; exact R).
  all: left; exists r; split; [exact Hr | right; rewrite Er; eauto].
Qed.

Lemma convert_total_float
  (repr_ext : PyVal -> string) (parsed tool : PyVal) (x : float)
  (from_unit to_unit : string) :
  getitem parsed "tool" = Return tool ->
  getitem parsed "value" = Return (PFloat x) ->
  getitem parsed "from_unit" = Return (PStr from_unit) ->
  getitem parsed "to_unit" = Return (PStr to_unit) ->
  exists r, outcome (convert repr_ext parsed) = Return r /\ string_or_none r.
Proof.
  intros Ht Hv Hf Hu.
  rewrite (convert_float_value repr_ext parsed tool x from_unit to_unit
             Ht Hv Hf Hu).
  destruct (conversion_table from_unit to_unit).
  - eexists. split; [reflexivity | right; eauto].
  - eexists. split; [reflexivity | left; reflexivity].
Qed.

Lemma handler_missing_field
  (simple_eval : PyVal -> Outcome PyVal)
  (call : Callable -> list PyVal -> Outcome PyVal)
  (repr_ext : PyVal -> string) (d : list (string * PyVal)) :
  (dict_get d "tool" = None \/ dict_get d "expression" = None ->
   raises KeyError (outcome (calculate simple_eval repr_ext (PDict d))))
  /\ (dict_get d "tool" = None \/ dict_get d "value" = None
      \/ dict_get d "from_unit" = None \/ dict_get d "to_unit" = None ->
      raises KeyError (outcome (convert repr_ext (PDict d))))
  /\ (dict_get d "operation" = None \/ dict_get d "inputs" = None ->
      raises KeyError (outcome (run_algorithm call repr_ext (PDict d)))).
Proof.
  unfold calculate, convert, run_algorithm, run_algorithm_in, getitem.
  split; [| split]; intros H;
    repeat match goal with
           | |- context [dict_get d ?k] =>
               destruct (dict_get d k); run; [| reflexivity]
           end;
    repeat match type of H with
           | _ \/ _ => destruct H as [H | H]
           end; discriminate H.
Qed.

(** What [printable] asks of an integer: its conversion to a string is
    the one of [str_int] whatever limit the interpreter is run with, off or
    not below 640 digits.  At the default limit the conversion of an integer
    of 4301 digits raises. *)
Lemma printable_int_any_limit (limit z : Z) :
  limit = 0%Z \/ (640 <= limit)%Z ->
  printable (PInt z) = true ->
  str_int_limited limit z = Return (str_int z).
Proof.
  intros Hl Hz. unfold str_int_limited.
  unfold printable, printable_scalar in Hz. apply Z.ltb_lt in Hz.
  destruct Hl as [-> | Hl]; [reflexivity |].
  assert (H : (10 ^ 640 <= 10 ^ limit)%Z)
    by (apply Z.pow_le_mono_r; [reflexivity | exact Hl]).
  destruct (Z.leb_spec (10 ^ limit) (Z.abs z)) as [L | L].
  - exfalso.
    exact (Z.lt_irrefl _ (Z.lt_le_trans _ _ _ Hz (Z.le_trans _ _ _ H L))).
  - rewrite andb_false_r. reflexivity.
Qed.

Lemma str_int_past_default_limit :
  raises ValueError (str_int_limited 4300 (10 ^ 4300))
  /\ str_int_limited 4300 (10 ^ 4299) = Return (str_int (10 ^ 4299)).
Proof.
  assert (Past : ((0 <? 4300) && (10 ^ 4300 <=? Z.abs (10 ^ 4300)))%Z = true)
    by (vm_compute; reflexivity).
  assert (Below : ((0 <? 4300) && (10 ^ 4300 <=? Z.abs (10 ^ 4299)))%Z = false)
    by (vm_compute; reflexivity).
  unfold str_int_limited. rewrite Past, Below. split; reflexivity.
Qed.

(** C3, as the code has it.  A handler returns a result string or [None]
    when the request carries the fields it reads and their values are
    [printable], which the trace lines written before any [try] need:
    [calculate] for every such tag and expression, [run_algorithm] for an
    operation string and a list of inputs, [convert] for unit strings and a
    float value; on an integer value [convert] either returns so or raises
    [OverflowError], the integer being converted to a float.  A handler
    raises [KeyError] on a request that lacks one of its fields. *)
Theorem handlers_return_on_complete_requests
  (simple_eval : PyVal -> Outcome PyVal)
  (call : Callable -> list PyVal -> Outcome PyVal)
  (repr_ext : PyVal -> string) (parsed : PyVal) :
  (forall tool expression,
      getitem parsed "tool" = Return tool ->
      getitem parsed "expression" = Return expression ->
      printable tool = true ->
      printable expression = true ->
      exists r, outcome (calculate simple_eval repr_ext parsed) = Return r
                /\ string_or_none r)
  /\ (forall tool x from_unit to_unit,
         getitem parsed "tool" = Return tool ->
         getitem parsed "value" = Return (PFloat x) ->
         getitem parsed "from_unit" = Return (PStr from_unit) ->
         getitem parsed "to_unit" = Return (PStr to_unit) ->
         printable tool = true ->
         utf8 from_unit = true ->
         utf8 to_unit = true ->
         exists r, outcome (convert repr_ext parsed) = Return r
                   /\ string_or_none r)
  /\ (forall tool n from_unit to_unit,
         getitem parsed "tool" = Return tool ->
         getitem parsed "value" = Return (PInt n) ->
         getitem parsed "from_unit" = Return (PStr from_unit) ->
         getitem parsed "to_unit" = Return (PStr to_unit) ->
         printable tool = true ->
         printable (PInt n) = true ->
         utf8 from_unit = true ->
         utf8 to_unit = true ->
         (exists r, outcome (convert repr_ext parsed) = Return r
                    /\ string_or_none r)
         \/ raises OverflowError (outcome (convert repr_ext parsed)))
  /\ (forall operation inputs,
         getitem parsed "operation" = Return (PStr operation) ->
         getitem parsed "inputs" = Return (PList inputs) ->
         utf8 operation = true ->
         printable (PList inputs) = true ->
         exists r, outcome (run_algorithm call repr_ext parsed) = Return r
                   /\ string_or_none r)
  /\ (forall d,
         parsed = PDict d ->
         (dict_get d "tool" = None \/ dict_get d "expression" = None ->
          raises KeyError (outcome (calculate simple_eval repr_ext parsed)))
         /\ (dict_get d "tool" = None \/ dict_get d "value" = None
             \/ dict_get d "from_unit" = None \/ dict_get d "to_unit" = None ->
             raises KeyError (outcome (convert repr_ext parsed)))
         /\ (dict_get d "operation" = None \/ dict_get d "inputs" = None ->
             raises KeyError (outcome (run_algorithm call repr_ext parsed)))).
Proof.
  split; [| split; [| split; [| split]]].
  - intros tool expression Ht He _ _.
    destruct (calculate_total simple_eval repr_ext parsed tool expression Ht He)
      as (out & r & E & S).
    exists r. rewrite E. split; [reflexivity | exact S].
  - intros tool x f t Ht Hv Hf Hu _ _ _.
    exact (convert_total_float repr_ext parsed tool x f t Ht Hv Hf Hu).
  - intros tool n f t Ht Hv Hf Hu _ _ _ _.
    exact (convert_int_value repr_ext parsed tool n f t Ht Hv Hf Hu).
  - intros operation inputs Ho Hi _ _.
    destruct (run_algorithm_total call repr_ext parsed operation inputs Ho Hi)
      as (out & r & E & S).
    exists r. rewrite E. split; [reflexivity | exact S].
  - intros d ->. apply handler_missing_field.
Qed.

Lemma handlers_return_on_complete_requests_witness :
  (exists r,
      outcome (calculate simple_eval_sample repr_sample (calculator_request "10/0"))
      = Return r /\ string_or_none r)
  /\ raises KeyError
       (outcome (calculate simple_eval_sample repr_sample
                   (PDict [("tool", PStr "calculator")]))).
Proof.
  destruct (handlers_return_on_complete_requests simple_eval_sample call_sample
              repr_sample (calculator_request "10/0")) as (Hc & _).
  destruct (handlers_return_on_complete_requests simple_eval_sample call_sample
              repr_sample (PDict [("tool", PStr "calculator")]))
    as (_ & _ & _ & _ & Hm).
  split.
  - exact (Hc (PStr "calculator") (PStr "10/0") eq_refl eq_refl eq_refl eq_refl).
  - exact (proj1 (Hm [("tool", PStr "calculator")] eq_refl)
             (or_intror eq_refl)).
Defined.

(** C3, counterexample.  A calculator request without its [expression]
    field makes [calculate] raise [KeyError]: the lookup of the field is
    before the [try] block, and the exception leaves the handler. *)
Lemma calculate_missing_expression_raises :
  calculate simple_eval_sample repr_sample (PDict [("tool", PStr "calculator")])
  = ([], Raise (mkExn KeyError "'expression'"))
  /\ dispatch simple_eval_sample call_sample repr_sample
       (PDict [("tool", PStr "calculator")])
     = ([], Raise (mkExn KeyError "'expression'")).
Proof. split; reflexivity. Qed.


(** * Further properties of the code *)

(** ** What a handler returns *)

Lemma outcome_bind_return {A B} (m : M A) (k : A -> M B) (r : B) :
  outcome (bind m k) = Return r ->
  exists a, outcome m = Return a /\ outcome (k a) = Return r.
Proof.
  destruct m as [out [a | e]]; unfold bind; cbn.
  - destruct (k a) as [out' o] eqn:E. cbn. intros ->. exists a. rewrite E. auto.
  - discriminate.
Qed.

Lemma calculate_returns_string_or_none
  (simple_eval : PyVal -> Outcome PyVal) (repr_ext : PyVal -> string)
  (parsed r : PyVal) :
  outcome (calculate simple_eval repr_ext parsed) = Return r -> string_or_none r.
Proof.
  intros H.
  destruct (getitem parsed "tool") as [tool | e] eqn:Ht.
  - destruct (getitem parsed "expression") as [expression | e] eqn:He.
    + destruct (calculate_total simple_eval repr_ext parsed tool expression Ht He)
        as (out & r' & E & S).
      rewrite E in H. injection H as <-. exact S.
    + unfold calculate in H. rewrite Ht, He in H. discriminate H.
  - unfold calculate in H. rewrite Ht in H. discriminate H.
Qed.

Lemma convert_returns_string_or_none
  (repr_ext : PyVal -> string) (parsed r : PyVal) :
  outcome (convert repr_ext parsed) = Return r -> string_or_none r.
Proof.
  unfold convert.
  repeat (match goal with
          | |- context [lift (getitem ?p ?k)] => destruct (getitem p k)
          end; run; [| discriminate]).
  match goal with
  | |- context [lift ?o] => destruct o
  end; run; [| discriminate].
  repeat match goal with
         | |- context [if eq_str ?a ?b then _ else _] => destruct (eq_str a b)
         end.
  all: try (match goal with
            | |- context [lift ?o] => destruct o
            end; run; [| discriminate];
            match goal with
            | |- context [lift ?o] => destruct o
            end; run; [| discriminate];
            intros H; injection H as <-; right; eauto).
  run. intros H; injection H as <-. left; reflexivity.
Qed.

Lemma run_algorithm_in_returns_string_or_none
  (call : Callable -> list PyVal -> Outcome PyVal) (repr_ext : PyVal -> string)
  (tools : Registry) (parsed r : PyVal) :
  outcome (run_algorithm_in call repr_ext tools parsed) = Return r ->
  string_or_none r.
Proof.
  unfold run_algorithm_in.
  repeat (match goal with
          | |- context [lift (getitem ?p ?k)] => destruct (getitem p k)
          end; run; [| discriminate]).
  match goal with
  | |- context [lift ?o] => destruct o as [known |]
  end; run; [| discriminate].
  destruct known; cbn [negb].
  2: { run. intros H; injection H as <-. left; reflexivity. }
  match goal with
  | |- context [lift ?o] => destruct o as [[func desc] |]
  end; run; [| discriminate].
  match goal with |- context [lift ?o] => destruct o end; run; [| discriminate].
  match goal with |- context [lift ?o] => destruct o end; run; [| discriminate].
  match goal with |- context [negb ?b] => destruct b end; cbn [negb].
  2: { run. intros H; injection H as <-. left; reflexivity. }
  run.
  match goal with |- context [lift ?o] => destruct o end; run.
  2: { unfold try. cbn. intros H; injection H as <-. left; reflexivity. }
  match goal with |- context [lift ?o] => destruct o end; run.
  - unfold ret, try. cbn. intros H; injection H as <-. right; eauto.
  - unfold try. cbn. intros H; injection H as <-. left; reflexivity.
Qed.

Lemma dispatch_returns_string_or_none
  (simple_eval : PyVal -> Outcome PyVal)
  (call : Callable -> list PyVal -> Outcome PyVal)
  (repr_ext : PyVal -> string) (parsed r : PyVal) :
  outcome (dispatch simple_eval call repr_ext parsed) = Return r ->
  string_or_none r.
Proof.
  unfold dispatch.
  destruct (getitem parsed "tool") as [t0 | e]; run; [| discriminate].
  destruct (eq_str t0 "none").
  { run. intros H. injection H as <-. right. eauto. }
  destruct (lower t0) as [t | e]; run; [| discriminate].
  destruct (eq_str t "calculator"); [apply calculate_returns_string_or_none |].
  run. destruct (eq_str t "converter"); [apply convert_returns_string_or_none |].
  run. destruct (eq_str t "algorithm");
    [apply run_algorithm_in_returns_string_or_none |].
  run. intros H. injection H as <-. right. eauto.
Qed.

Lemma turn_returns_string_or_none
  (json_loads : string -> Outcome PyVal)
  (simple_eval : PyVal -> Outcome PyVal)
  (call : Callable -> list PyVal -> Outcome PyVal)
  (repr_ext : PyVal -> string) (text : string) (r : PyVal) :
  outcome (turn json_loads simple_eval call repr_ext text) = Return r ->
  string_or_none r.
Proof.
  unfold turn. intros H.
  apply outcome_bind_return in H as (parsed & _ & H).
  destruct (is_none parsed).
  - cbn in H. injection H as <-. right. eauto.
  - exact (dispatch_returns_string_or_none simple_eval call repr_ext parsed r H).
Qed.

(** X1.  Whatever the request object is and whatever the libraries do, a
    value that a handler or the dispatch returns is a string or [None]:
    the result that the loop tests and shows to the model is never a
    number, a list or a dict. *)
Theorem results_are_strings_or_none
  (simple_eval : PyVal -> Outcome PyVal)
  (call : Callable -> list PyVal -> Outcome PyVal)
  (repr_ext : PyVal -> string) (tools : Registry) (parsed r : PyVal) :
  outcome (calculate simple_eval repr_ext parsed) = Return r
  \/ outcome (convert repr_ext parsed) = Return r
  \/ outcome (run_algorithm_in call repr_ext tools parsed) = Return r
  \/ outcome (dispatch simple_eval call repr_ext parsed) = Return r ->
  string_or_none r.
Proof.
  intros [H | [H | [H | H]]].
  - exact (calculate_returns_string_or_none simple_eval repr_ext parsed r H).
  - exact (convert_returns_string_or_none repr_ext parsed r H).
  - exact (run_algorithm_in_returns_string_or_none call repr_ext tools parsed r H).
  - exact (dispatch_returns_string_or_none simple_eval call repr_ext parsed r H).
Qed.

Lemma results_are_strings_or_none_witness :
  string_or_none (PStr "Result: 15.00").
Proof.
  apply (results_are_strings_or_none simple_eval_sample
           call_sample repr_sample ALGORITHM_TOOLS
           (calculator_request "10 + 5") (PStr "Result: 15.00")).
  left. reflexivity.
Defined.

(** ** The arity read off a description *)

Lemma count_nonneg (c : ascii) (s : string) : (0 <= count c s)%Z.
Proof.
  induction s as [| a s IH]; cbn; [lia |]. destruct (Ascii.eqb a c); lia.
Qed.

Lemma count_app (c : ascii) (a b : string) :
  count c (a ++ b) = (count c a + count c b)%Z.
Proof. induction a as [| x a IH]; cbn; [reflexivity |]. rewrite IH. lia. Qed.

Lemma count_absent (c : ascii) (s : string) :
  has_char c s = false -> count c s = 0%Z.
Proof.
  induction s as [| a s IH]; cbn; [reflexivity |].
  destruct (Ascii.eqb a c); cbn; [discriminate |]. intros H. rewrite IH; auto.
Qed.

Lemma rstrip_count (c d : ascii) (s : string) :
  Ascii.eqb c d = false -> count d (rstrip c s) = count d s.
Proof.
  intros Hcd. induction s as [| a s IH]; cbn; [reflexivity |].
  destruct (rstrip c s) eqn:E.
  - cbn in IH. destruct (Ascii.eqb_spec a c) as [-> |].
    + cbn. rewrite Hcd. lia.
    + cbn. lia.
  - cbn [count] in *. lia.
Qed.

Lemma split_absent (c : ascii) (s : string) :
  has_char c s = false -> split c s = [s].
Proof.
  induction s as [| a s IH]; cbn; [reflexivity |].
  destruct (Ascii.eqb a c); cbn; [discriminate |]. intros H. rewrite IH; auto.
Qed.

Lemma split_app (c : ascii) (p s : string) :
  has_char c p = false ->
  split c (p ++ String c s) = p :: split c s.
Proof.
  induction p as [| a p IH]; cbn.
  - rewrite Ascii.eqb_refl. reflexivity.
  - destruct (Ascii.eqb a c); cbn; [discriminate |]. intros H. rewrite IH; auto.
Qed.

Lemma count_join (names : list string) :
  names <> [] ->
  (forall n, In n names -> has_char "," n = false) ->
  count "," (join ", " names) = (Z.of_nat (length names) - 1)%Z.
Proof.
  induction names as [| n names IH]; [congruence |]. intros _ H.
  destruct names as [| m names].
  - cbn. rewrite count_absent; [lia | apply H; left; reflexivity].
  - change (join ", " (n :: m :: names)) with (n ++ ", " ++ join ", " (m :: names)).
    rewrite !count_app, IH; [| discriminate | intros; apply H; right; assumption].
    rewrite count_absent by (apply H; left; reflexivity).
    change (count "," ", ") with 1%Z. cbn [length]. lia.
Qed.

Lemma has_char_join (c : ascii) (sep : string) (names : list string) :
  has_char c sep = false ->
  (forall n, In n names -> has_char c n = false) ->
  has_char c (join sep names) = false.
Proof.
  intros Hs. induction names as [| n names IH]; intros H; [reflexivity |].
  destruct names as [| m names].
  - apply H. left; reflexivity.
  - change (join sep (n :: m :: names)) with (n ++ sep ++ join sep (m :: names)).
    rewrite !has_char_app, Hs, IH, (H n)
      by (cbn; auto; intros; apply H; right; assumption).
    reflexivity.
Qed.

Lemma expected_inputs_at_least_one (desc : string) (a : Z) :
  expected_inputs desc = Return a -> (1 <= a)%Z.
Proof.
  unfold expected_inputs.
  destruct (index1 (split "[" desc)) as [piece | e]; cbn [obind];
    [| discriminate].
  intros H. injection H as <-.
  pose proof (count_nonneg "," (rstrip "]" piece)). lia.
Qed.

(** X2.  The arity computation is right on every description of the shape
    the registry uses: a label without bracket, then the names of the inputs
    between brackets and separated by a comma and a space.  When there is
    at least one name and no name holds a comma or an opening bracket, the
    count is the number of names. *)
Theorem expected_inputs_counts_names (label : string) (names : list string) :
  names <> [] ->
  has_char "[" label = false ->
  (forall n, In n names -> has_char "," n = false /\ has_char "[" n = false) ->
  expected_inputs (label ++ "[" ++ join ", " names ++ "]")
  = Return (Z.of_nat (length names)).
Proof.
  intros Hne Hl Hn. unfold expected_inputs.
  change (label ++ "[" ++ join ", " names ++ "]")
    with (label ++ String "[" (join ", " names ++ "]")).
  rewrite (split_app "[" label _ Hl).
  rewrite split_absent.
  - cbn [index1 obind]. rewrite rstrip_count by reflexivity.
    rewrite count_app, count_join; [| assumption | intros n I; apply (Hn n I)].
    change (count "," "]") with 0%Z. f_equal. lia.
  - rewrite has_char_app, has_char_join; [reflexivity | reflexivity |].
    intros n I. apply (Hn n I).
Qed.

Lemma expected_inputs_counts_names_witness :
  expected_inputs "inputs: [n, root]" = Return 2%Z.
Proof.
  apply (expected_inputs_counts_names "inputs: " ["n"; "root"]).
  - discriminate.
  - reflexivity.
  - intros n [<- | [<- | []]]; split; reflexivity.
Defined.

(** ** The algorithm invoker *)

(** X3.  An operation that is hashable and is not a key of the registry (a
    name in another case, a number, [None]) is reported as unknown and gives
    [None], before the inputs are looked at: they need not even be a
    list. *)
Theorem run_algorithm_unknown_operation
  (call : Callable -> list PyVal -> Outcome PyVal) (repr_ext : PyVal -> string)
  (parsed operation inputs : PyVal) :
  getitem parsed "operation" = Return operation ->
  getitem parsed "inputs" = Return inputs ->
  registry_contains ALGORITHM_TOOLS operation = Return false ->
  run_algorithm call repr_ext parsed
  = ([ "Error: Unknown operation — " ++ py_str repr_ext operation ],
     Return PNone).
Proof.
  intros Ho Hi Hk. unfold run_algorithm, run_algorithm_in.
  rewrite Ho, Hi. run. rewrite Hk. run. reflexivity.
Qed.

Lemma run_algorithm_unknown_operation_witness :
  run_algorithm call_sample repr_sample
    (PDict [("operation", PStr "GCD"); ("inputs", PInt 7)])
  = ([ "Error: Unknown operation — GCD" ], Return PNone).
Proof.
  apply (run_algorithm_unknown_operation call_sample repr_sample
           (PDict [("operation", PStr "GCD"); ("inputs", PInt 7)])
           (PStr "GCD") (PInt 7)); reflexivity.
Defined.

(** X4.  The expected count is never below one, so over any registry a
    call with an empty list of inputs never reaches the function of the
    operation: the outcome is the same whatever the functions do, and it is
    not a result string. *)
Theorem run_algorithm_empty_inputs_never_call
  (repr_ext : PyVal -> string) (tools : Registry) (parsed : PyVal)
  (operation : string) :
  getitem parsed "operation" = Return (PStr operation) ->
  getitem parsed "inputs" = Return (PList []) ->
  forall call call',
    run_algorithm_in call repr_ext tools parsed
    = run_algorithm_in call' repr_ext tools parsed
    /\ forall s, outcome (run_algorithm_in call repr_ext tools parsed)
                 <> Return (PStr s).
Proof.
  intros Ho Hi call call'.
  rewrite !(run_algorithm_in_cases _ repr_ext tools parsed operation [] Ho Hi).
  destruct (registry_get tools operation) as [[f desc] |].
  - destruct (expected_inputs desc) as [a | e] eqn:E.
    + pose proof (expected_inputs_at_least_one desc a E) as Ha.
      cbn [length].
      destruct (Z.eqb_spec (Z.of_nat 0) a) as [Q |]; [cbn in Q; lia |].
      split; [reflexivity | discriminate].
    + split; [reflexivity | discriminate].
  - split; [reflexivity | discriminate].
Qed.

Lemma run_algorithm_empty_inputs_never_call_witness :
  run_algorithm_in call_sample repr_sample ALGORITHM_TOOLS
    (algorithm_request "factorial" [])
  = run_algorithm_in (fun _ _ => Return (PInt 1)) repr_sample ALGORITHM_TOOLS
      (algorithm_request "factorial" []).
Proof.
  exact (proj1 (run_algorithm_empty_inputs_never_call repr_sample ALGORITHM_TOOLS
                  (algorithm_request "factorial" []) "factorial"
                  eq_refl eq_refl call_sample (fun _ _ => Return (PInt 1)))).
Defined.

(** X5.  A registry entry whose description has no opening bracket cannot
    be called: the arity computation indexes past the only piece of the
    split, and [IndexError] leaves [run_algorithm] before anything is
    printed. *)
Theorem run_algorithm_description_without_bracket
  (call : Callable -> list PyVal -> Outcome PyVal) (repr_ext : PyVal -> string)
  (tools : Registry) (parsed : PyVal) (operation : string)
  (inputs : list PyVal) (f : Callable) (desc : string) :
  getitem parsed "operation" = Return (PStr operation) ->
  getitem parsed "inputs" = Return (PList inputs) ->
  registry_get tools operation = Some (f, desc) ->
  has_char "[" desc = false ->
  printed (run_algorithm_in call repr_ext tools parsed) = []
  /\ raises IndexError (outcome (run_algorithm_in call repr_ext tools parsed)).
Proof.
  intros Ho Hi G Hd.
  rewrite (run_algorithm_in_cases call repr_ext tools parsed operation inputs
             Ho Hi), G.
  unfold expected_inputs. rewrite (split_absent "[" desc Hd). cbn. auto.
Qed.

Lemma run_algorithm_description_without_bracket_witness :
  raises IndexError
    (outcome (run_algorithm_in call_sample repr_sample
                [ ("gcd", (math_gcd, "two integers")) ]
                (algorithm_request "gcd" [PInt 144; PInt 49]))).
Proof.
  exact (proj2 (run_algorithm_description_without_bracket call_sample repr_sample
                  [ ("gcd", (math_gcd, "two integers")) ]
                  (algorithm_request "gcd" [PInt 144; PInt 49]) "gcd"
                  [PInt 144; PInt 49] math_gcd "two integers"
                  eq_refl eq_refl eq_refl eq_refl)).
Defined.

(** X6.  With as many inputs as the operation takes, [run_algorithm] calls
    the function of the operation on the inputs in their order.  A value it
    returns is shown after the operation and the inputs joined by a comma
    and a space, for inputs and a value that are [printable]; an exception
    it raises is printed and gives [None], it does not leave the handler. *)
Theorem run_algorithm_performs
  (call : Callable -> list PyVal -> Outcome PyVal) (repr_ext : PyVal -> string)
  (parsed : PyVal) (operation : string) (inputs : list PyVal) :
  getitem parsed "operation" = Return (PStr operation) ->
  getitem parsed "inputs" = Return (PList inputs) ->
  declared_arity operation = Some (Z.of_nat (length inputs)) ->
  printable (PList inputs) = true ->
  exists f desc,
    registry_get ALGORITHM_TOOLS operation = Some (f, desc)
    /\ (forall result,
           call f inputs = Return result ->
           printable result = true ->
           run_algorithm call repr_ext parsed
           = ([ "Performing " ++ operation ++ " on " ++ repr_ext (PList inputs) ],
              Return (PStr ("Result: " ++ operation ++ "("
                              ++ join ", " (map (py_str repr_ext) inputs)
                              ++ ") = " ++ py_str repr_ext result))))
    /\ (forall e,
           call f inputs = Raise e ->
           run_algorithm call repr_ext parsed
           = ([ "Performing " ++ operation ++ " on " ++ repr_ext (PList inputs);
                "Error: " ++ exn_msg e ],
              Return PNone)).
Proof.
  intros Ho Hi Ha _.
  destruct (declared_arity_registered operation _ Ha) as (f & desc & G & E).
  exists f, desc. split; [exact G |]. unfold run_algorithm.
  rewrite (run_algorithm_in_cases call repr_ext ALGORITHM_TOOLS parsed operation
             inputs Ho Hi), G, E, Z.eqb_refl.
  split.
  - intros result -> _. reflexivity.
  - intros e ->. reflexivity.
Qed.

Lemma run_algorithm_performs_witness :
  run_algorithm call_sample repr_sample
    (algorithm_request "gcd" [PInt 144; PInt 49])
  = ([ "Performing gcd on [144, 49]" ],
     Return (PStr "Result: gcd(144, 49) = 1")).
Proof.
  destruct (run_algorithm_performs call_sample repr_sample
              (algorithm_request "gcd" [PInt 144; PInt 49]) "gcd"
              [PInt 144; PInt 49] eq_refl eq_refl eq_refl eq_refl)
    as (f & desc & G & E & _).
  injection G as <- <-. exact (E (PInt 1) eq_refl eq_refl).
Defined.

(** ** The tag *)

(** X7.  The tag [none] is compared as it is written, and the three tool
    names after lowering: a tag that reads [calculator], [converter] or
    [algorithm] in any letter case runs the handler of that tool. *)
Theorem dispatch_routes_by_lowered_tag
  (simple_eval : PyVal -> Outcome PyVal)
  (call : Callable -> list PyVal -> Outcome PyVal)
  (repr_ext : PyVal -> string) (parsed : PyVal) (tag : string) :
  getitem parsed "tool" = Return (PStr tag) ->
  (tag = "none" ->
   dispatch simple_eval call repr_ext parsed
   = ([ "I can only handle math questions and conversions" ],
      Return (PStr EmptyString)))
  /\ (str_lower tag = "calculator" ->
      dispatch simple_eval call repr_ext parsed
      = calculate simple_eval repr_ext parsed)
  /\ (str_lower tag = "converter" ->
      dispatch simple_eval call repr_ext parsed = convert repr_ext parsed)
  /\ (str_lower tag = "algorithm" ->
      dispatch simple_eval call repr_ext parsed
      = run_algorithm call repr_ext parsed).
Proof.
  intros H. rewrite (dispatch_string_tag simple_eval call repr_ext parsed tag H).
  split; [intros ->; reflexivity |].
  assert (N : forall t, str_lower tag = t -> str_lower t = t -> t <> "none" ->
                        String.eqb tag "none" = false).
  { intros t Ht Hl Hn. apply String.eqb_neq. intros ->. apply Hn.
    rewrite <- Ht. reflexivity. }
  split; [| split]; intros E;
    rewrite (N _ E eq_refl ltac:(discriminate)), E; reflexivity.
Qed.

Lemma dispatch_routes_by_lowered_tag_witness :
  dispatch simple_eval_sample call_sample repr_sample
    (PDict [("tool", PStr "CALCULATOR"); ("expression", PStr "10 + 5")])
  = calculate simple_eval_sample repr_sample
      (PDict [("tool", PStr "CALCULATOR"); ("expression", PStr "10 + 5")]).
Proof.
  exact (proj1 (proj2 (dispatch_routes_by_lowered_tag simple_eval_sample
                         call_sample repr_sample
                         (PDict [("tool", PStr "CALCULATOR");
                                 ("expression", PStr "10 + 5")])
                         "CALCULATOR" eq_refl))
           eq_refl).
Defined.

(** X8.  A tag that is not a string (a number, [null], a list) is not an
    unknown tool: the first lowering of it raises [AttributeError], which
    leaves the dispatch with nothing printed. *)
Theorem dispatch_tag_not_a_string
  (simple_eval : PyVal -> Outcome PyVal)
  (call : Callable -> list PyVal -> Outcome PyVal)
  (repr_ext : PyVal -> string) (parsed tag : PyVal) :
  getitem parsed "tool" = Return tag ->
  (forall s, tag <> PStr s) ->
  printed (dispatch simple_eval call repr_ext parsed) = []
  /\ raises AttributeError (outcome (dispatch simple_eval call repr_ext parsed)).
Proof.
  intros H Hs. unfold dispatch. rewrite H. run.
  destruct tag; try (split; reflexivity).
  exfalso. exact (Hs s eq_refl).
Qed.

Lemma dispatch_tag_not_a_string_witness :
  raises AttributeError
    (outcome (dispatch simple_eval_sample call_sample repr_sample
                (PDict [("tool", PNone)]))).
Proof.
  exact (proj2 (dispatch_tag_not_a_string simple_eval_sample call_sample
                  repr_sample (PDict [("tool", PNone)]) PNone eq_refl
                  ltac:(discriminate))).
Defined.

(** ** The arithmetic evaluator, failures *)

Lemma format_2f_not_a_number (v : PyVal) :
  as_num v = None ->
  exists e, format_2f v = Raise e
            /\ exn_class e <> ZeroDivisionError
            /\ exn_class e <> InvalidExpression.
Proof.
  destruct v; cbn; try discriminate; intros _; eexists;
    (split; [reflexivity | split; discriminate]).
Qed.

(** X10.  The three [except] clauses of [calculate]: a [ZeroDivisionError]
    of the evaluator prints that division by zero is not allowed; an
    exception of any class other than this one and [InvalidExpression] is
    printed with its message; and so is the failure to format a value that
    is not a number, or an integer too large for a float.  Each time the
    handler returns [None]. *)
Theorem calculate_error_messages
  (simple_eval : PyVal -> Outcome PyVal) (repr_ext : PyVal -> string)
  (parsed tool expression : PyVal) :
  getitem parsed "tool" = Return tool ->
  getitem parsed "expression" = Return expression ->
  let failed (line : string) :=
    ([ "Calling tool: " ++ py_str repr_ext tool;
       "Expression: " ++ py_str repr_ext expression; line ],
     Return PNone) in
  (forall e, simple_eval expression = Raise e ->
             exn_class e = ZeroDivisionError ->
             calculate simple_eval repr_ext parsed
             = failed "Error: Division by zero is not allowed")
  /\ (forall e, simple_eval expression = Raise e ->
                exn_class e <> ZeroDivisionError ->
                exn_class e <> InvalidExpression ->
                calculate simple_eval repr_ext parsed
                = failed ("Error: Unexpected error — " ++ exn_msg e))
  /\ (forall v, simple_eval expression = Return v ->
                as_num v = None ->
                exists msg,
                  calculate simple_eval repr_ext parsed
                  = failed ("Error: Unexpected error — " ++ msg))
  /\ (forall n e, simple_eval expression = Return (PInt n) ->
                  float_of_int n = Raise e ->
                  calculate simple_eval repr_ext parsed
                  = failed
                      "Error: Unexpected error — int too large to convert to float").
Proof.
  intros Ht He failed. split; [| split; [| split]].
  - intros e H Hc.
    rewrite (calculate_evaluator_raises _ _ _ _ _ Ht He e H). cbn. rewrite Hc.
    reflexivity.
  - intros e H Hz Hi.
    rewrite (calculate_evaluator_raises _ _ _ _ _ Ht He e H). cbn.
    destruct (exn_class e); try reflexivity; contradiction.
  - intros v H Hn.
    rewrite (calculate_evaluator_returns _ _ _ _ _ Ht He v H).
    destruct (format_2f_not_a_number v Hn) as (e & -> & Hz & Hi).
    exists (exn_msg e). cbn.
    destruct (exn_class e); try reflexivity; contradiction.
  - intros n e H Hn.
    rewrite (calculate_evaluator_returns _ _ _ _ _ Ht He _ H).
    cbn [format_2f]. unfold float_of_int in *.
    destruct (2 ^ 1024 - 2 ^ 970 <=? Z.abs n)%Z; [| discriminate Hn].
    reflexivity.
Qed.

Lemma calculate_error_messages_witness :
  calculate simple_eval_sample repr_sample (calculator_request "10/0")
  = ([ "Calling tool: calculator"; "Expression: 10/0";
       "Error: Division by zero is not allowed" ],
     Return PNone).
Proof.
  exact (proj1 (calculate_error_messages simple_eval_sample repr_sample
                  (calculator_request "10/0") (PStr "calculator") (PStr "10/0")
                  eq_refl eq_refl)
           (mkExn ZeroDivisionError "division by zero") eq_refl eq_refl).
Defined.

(** ** The unit converter, failures *)

(** X11.  For a pair of the table and a value that is not a number (a
    string, [None], a list, a dict), [convert] prints its two trace lines
    and raises [TypeError]: the arithmetic is outside any [try]. *)
Theorem convert_value_not_a_number
  (repr_ext : PyVal -> string) (parsed tool value : PyVal)
  (from_unit to_unit : string) (formula : float -> float) :
  getitem parsed "tool" = Return tool ->
  getitem parsed "value" = Return value ->
  getitem parsed "from_unit" = Return (PStr from_unit) ->
  getitem parsed "to_unit" = Return (PStr to_unit) ->
  conversion_table from_unit to_unit = Some formula ->
  as_num value = None ->
  printed (convert repr_ext parsed)
  = [ "Calling tool: " ++ py_str repr_ext tool;
      "Converting : " ++ py_str repr_ext value ++ " " ++ from_unit ++ " to "
        ++ to_unit ]
  /\ raises TypeError (outcome (convert repr_ext parsed)).
Proof.
  intros Ht Hv Hf Hu Hc Hn.
  rewrite (convert_by_pair repr_ext parsed tool value from_unit to_unit
             Ht Hv Hf Hu).
  unfold conversion_table in Hc.
  repeat match type of Hc with
         | (if ?a && ?b then _ else _) = _ => destruct (a && b)
         end; try discriminate Hc; clear Hc.
  all: destruct value; try discriminate Hn; run; split; reflexivity.
Qed.

Lemma convert_value_not_a_number_witness :
  raises TypeError
    (outcome (convert repr_sample
                (converter_request (PStr "ten") "celsius" "fahrenheit"))).
Proof.
  exact (proj2 (convert_value_not_a_number repr_sample
                  (converter_request (PStr "ten") "celsius" "fahrenheit")
                  (PStr "converter") (PStr "ten") "celsius" "fahrenheit"
                  (fun v => v * 9 / 5 + 32)%float
                  eq_refl eq_refl eq_refl eq_refl eq_refl eq_refl)).
Defined.

(** X12.  When one of the two units is not a string, the concatenation
    that builds the key raises [TypeError] after the two trace lines, for
    every value and whatever the other unit is. *)
Theorem convert_unit_not_a_string
  (repr_ext : PyVal -> string) (parsed tool value from_unit to_unit : PyVal) :
  getitem parsed "tool" = Return tool ->
  getitem parsed "value" = Return value ->
  getitem parsed "from_unit" = Return from_unit ->
  getitem parsed "to_unit" = Return to_unit ->
  (forall s, from_unit <> PStr s) \/ (forall s, to_unit <> PStr s) ->
  printed (convert repr_ext parsed)
  = [ "Calling tool: " ++ py_str repr_ext tool;
      "Converting : " ++ py_str repr_ext value ++ " " ++ py_str repr_ext from_unit
        ++ " to " ++ py_str repr_ext to_unit ]
  /\ raises TypeError (outcome (convert repr_ext parsed)).
Proof.
  intros Ht Hv Hf Hu H. unfold convert. rewrite Ht, Hv, Hf, Hu. run.
  destruct H as [H | H].
  - destruct from_unit; try (exfalso; exact (H _ eq_refl));
      cbn; split; reflexivity.
  - destruct to_unit; try (exfalso; exact (H _ eq_refl));
      destruct from_unit; cbn; split; reflexivity.
Qed.

Lemma convert_unit_not_a_string_witness :
  raises TypeError
    (outcome (convert repr_sample
                (PDict [ ("tool", PStr "converter"); ("value", PInt 100);
                         ("from_unit", PStr "km"); ("to_unit", PNone) ]))).
Proof.
  exact (proj2 (convert_unit_not_a_string repr_sample
                  (PDict [ ("tool", PStr "converter"); ("value", PInt 100);
                           ("from_unit", PStr "km"); ("to_unit", PNone) ])
                  (PStr "converter") (PInt 100) (PStr "km") PNone
                  eq_refl eq_refl eq_refl eq_refl
                  (or_intror (fun s (E : PNone = PStr s) =>
                                eq_ind PNone
                                  (fun v => match v with
                                            | PNone => True
                                            | _ => False
                                            end) I (PStr s) E)))).
Defined.

(** ** The operation list of the prompt *)

Lemma split_join (c : ascii) (lines : list string) :
  lines <> [] ->
  (forall l, In l lines -> has_char c l = false) ->
  split c (join (String c EmptyString) lines) = lines.
Proof.
  induction lines as [| x lines IH]; [congruence |]. intros _ H.
  destruct lines as [| y lines].
  - cbn. apply split_absent. apply H. left; reflexivity.
  - change (join (String c EmptyString) (x :: y :: lines))
      with (x ++ String c (join (String c EmptyString) (y :: lines))).
    rewrite split_app by (apply H; left; reflexivity).
    rewrite IH; [reflexivity | discriminate |].
    intros l I. apply H. right. exact I.
Qed.

(** X13.  The operation list put in the system prompt has one line for
    each entry of the registry, in the order of the registry, made of the
    name between double quotes and of the description from which
    [run_algorithm] computes the arity: splitting the text at the ends of
    line gives these lines back, as long as no name and no description
    holds an end of line. *)
Theorem tool_descriptions_lines (tools : Registry) :
  tools <> [] ->
  (forall entry, In entry tools ->
                 has_char (ascii_of_nat 10) (fst entry) = false
                 /\ has_char (ascii_of_nat 10) (snd (snd entry)) = false) ->
  split (ascii_of_nat 10) (tool_descriptions_of tools) = map describe tools.
Proof.
  intros Hne H. unfold tool_descriptions_of, newline. apply split_join.
  - destruct tools; [congruence | discriminate].
  - intros l I. apply in_map_iff in I as (entry & <- & I).
    destruct (H entry I) as [Hn Hd]. unfold describe.
    rewrite !has_char_app, Hn, Hd. reflexivity.
Qed.

Lemma tool_descriptions_lines_witness :
  split (ascii_of_nat 10) tool_descriptions = map describe ALGORITHM_TOOLS.
Proof.
  apply (tool_descriptions_lines ALGORITHM_TOOLS).
  - discriminate.
  - intros entry I. cbv [ALGORITHM_TOOLS In] in I.
    repeat (destruct I as [<- | I]; [split; reflexivity |]).
    destruct I.
Defined.

(** ** The loop *)

Section LoopFacts.

Variables prompt_head prompt_tail : string.
Variable json_loads : string -> Outcome PyVal.
Variable simple_eval : PyVal -> Outcome PyVal.
Variable call : Callable -> list PyVal -> Outcome PyVal.
Variable repr_ext : PyVal -> string.

Let loop := main_loop prompt_head prompt_tail json_loads simple_eval call repr_ext.
Let system := mkMessage "system" (SYSTEM_PROMPT prompt_head prompt_tail).
Let well_formed :=
  chat_of_session (SYSTEM_PROMPT prompt_head prompt_tail) json_loads simple_eval
    call repr_ext.

Lemma loop_exit (now : Interaction) (later : list Interaction) :
  str_lower (user_input now) = "exit" ->
  loop (now :: later) = ([Input ask], Return tt).
Proof. intros H. unfold loop. cbn [main_loop]. rewrite H. reflexivity. Qed.

Lemma Forall_map_print (world : list Interaction) (lines : list string) :
  Forall (well_formed world) (map Print lines).
Proof. induction lines; cbn; constructor; cbn; auto. Qed.

Lemma Forall_map_pieces (world : list Interaction) (l : list string) :
  Forall (well_formed world) (map PrintNoEnd l).
Proof. induction l; cbn; constructor; cbn; auto. Qed.

(** A call of a session is a call of every session that has its passes. *)
Lemma chat_of_longer_session (world world' : list Interaction) (e : Event) :
  (forall i, In i world -> In i world') ->
  well_formed world e -> well_formed world' e.
Proof.
  intros Hs. unfold well_formed, chat_of_session.
  destruct e as [p | l | t | model msgs [|]]; auto.
  - intros [Hm (now & text & s & Hi & H)]. split; [exact Hm |].
    exists now, text, s. split; [apply Hs, Hi | exact H].
  - intros [Hm (now & Hi & H)]. split; [exact Hm |].
    exists now. split; [apply Hs, Hi | exact H].
Qed.

Lemma main_loop_events (world : list Interaction) :
  Forall (well_formed world) (fst (loop world)).
Proof.
  unfold loop. induction world as [| now later IH]; cbn [main_loop].
  - cbn. repeat constructor.
  - destruct (String.eqb_spec (str_lower (user_input now)) "exit") as [| Hx].
    { cbn. repeat constructor. }
    assert (IH' : Forall (well_formed (now :: later))
                    (fst (main_loop prompt_head prompt_tail json_loads
                            simple_eval call repr_ext later))).
    { revert IH. apply Forall_impl. intros e.
      apply chat_of_longer_session. intros i Hi. right. exact Hi. }
    clear IH.
    assert (F : Forall (well_formed (now :: later))
                  [Input ask;
                   Chat "llama3.1"
                     (app (messages prompt_head prompt_tail)
                        [mkMessage "user" (user_input now)]) false]).
    { constructor; [exact I |]. constructor; [| constructor].
      split; [reflexivity |]. exists now.
      split; [left; reflexivity | split; [exact Hx | reflexivity]]. }
    destruct (reply now) as [text | e] eqn:Hr; [| exact F].
    destruct (turn json_loads simple_eval call repr_ext text) as [lines o] eqn:T.
    assert (F' : Forall (well_formed (now :: later))
                   (app [Input ask;
                         Chat "llama3.1"
                           (app (messages prompt_head prompt_tail)
                              [mkMessage "user" (user_input now)]) false]
                      (map Print lines))).
    { apply Forall_app. split; [exact F | apply Forall_map_print]. }
    destruct o as [result | e]; [| exact F'].
    destruct (truthy result) eqn:R.
    + assert (S : string_or_none result).
      { apply (turn_returns_string_or_none json_loads simple_eval call repr_ext
                 text).
        rewrite T. reflexivity. }
      destruct S as [-> | [s ->]]; [discriminate R |].
      assert (A : Forall (well_formed (now :: later))
                    (app (app [Input ask;
                               Chat "llama3.1"
                                 (app (messages prompt_head prompt_tail)
                                    [mkMessage "user" (user_input now)]) false]
                            (map Print lines))
                       [Chat "llama3.1"
                          (summary_messages repr_ext (user_input now) (PStr s))
                          true])).
      { apply Forall_app. split; [exact F' |]. constructor; [| constructor].
        split; [reflexivity |]. exists now, text, s.
        split; [left; reflexivity |]. split; [exact Hx |].
        split; [exact Hr |]. split; [rewrite T; reflexivity |].
        split; [intros ->; discriminate R | reflexivity]. }
      destruct (summary now) as [pieces | e]; [| exact A].
      destruct (main_loop prompt_head prompt_tail json_loads simple_eval call
                  repr_ext later) as [events o'].
      cbn [fst] in *. apply Forall_app. split; [exact A |].
      apply Forall_app. split; [apply Forall_map_pieces |].
      constructor; [exact I | exact IH'].
    + destruct (main_loop prompt_head prompt_tail json_loads simple_eval call
                  repr_ext later) as [events o'].
      cbn [fst] in *. apply Forall_app. split; [exact F' | exact IH'].
Qed.

End LoopFacts.

(** X14.  The loop ends at the first line that reads [exit] in any letter
    case: what the outside would answer after it plays no part, no line
    after it is asked for and no call of [chat] is made for it. *)
Theorem main_loop_stops_at_exit
  (prompt_head prompt_tail : string)
  (json_loads : string -> Outcome PyVal)
  (simple_eval : PyVal -> Outcome PyVal)
  (call : Callable -> list PyVal -> Outcome PyVal)
  (repr_ext : PyVal -> string)
  (before later : list Interaction) (now : Interaction) :
  str_lower (user_input now) = "exit" ->
  main_loop prompt_head prompt_tail json_loads simple_eval call repr_ext
    (before ++ now :: later)
  = main_loop prompt_head prompt_tail json_loads simple_eval call repr_ext
      (before ++ [now])
  /\ main_loop prompt_head prompt_tail json_loads simple_eval call repr_ext
       (now :: later)
     = ([Input ask], Return tt).
Proof.
  intros H. split.
  - induction before as [| i before IH]; cbn [app].
    + rewrite !loop_exit by exact H. reflexivity.
    + cbn [main_loop]. rewrite IH. reflexivity.
  - apply loop_exit, H.
Qed.

Lemma main_loop_stops_at_exit_witness :
  main_loop EmptyString EmptyString json_loads_session simple_eval_sample
    call_sample repr_sample session
  = main_loop EmptyString EmptyString json_loads_session simple_eval_sample
      call_sample repr_sample (firstn 3 session).
Proof.
  exact (proj1 (main_loop_stops_at_exit EmptyString EmptyString
                  json_loads_session simple_eval_sample call_sample repr_sample
                  (firstn 2 session) (skipn 3 session)
                  (mkInteraction "Exit" (Return EmptyString) (Return []))
                  eq_refl)).
Defined.

(** X15.  Every call of [chat] that the loop makes belongs to a pass of
    the session.  A call without streaming carries the system prompt and
    the line typed in its pass and nothing else: no earlier question, reply
    or result is sent again, the global [messages] never grows, and no call
    is made for the line that ends the loop.  A streamed call is the
    request for a summary: it carries the line typed in its pass and the
    result of the turn on the reply of that pass, which is a string and is
    not empty; no summary is asked for after a turn that returned [None] or
    left the result empty. *)
Theorem main_loop_chat_calls
  (prompt_head prompt_tail : string)
  (json_loads : string -> Outcome PyVal)
  (simple_eval : PyVal -> Outcome PyVal)
  (call : Callable -> list PyVal -> Outcome PyVal)
  (repr_ext : PyVal -> string)
  (world : list Interaction) (event : Event) :
  In event
    (fst (main_loop prompt_head prompt_tail json_loads simple_eval call repr_ext
            world)) ->
  chat_of_session (SYSTEM_PROMPT prompt_head prompt_tail) json_loads simple_eval
    call repr_ext world event.
Proof.
  intros H.
  exact (proj1 (Forall_forall _ _)
           (main_loop_events prompt_head prompt_tail json_loads simple_eval call
              repr_ext world)
           event H).
Qed.

Lemma main_loop_chat_calls_witness :
  exists now text s,
    In now session
    /\ str_lower (user_input now) <> "exit"
    /\ reply now = Return text
    /\ outcome (turn json_loads_session simple_eval_sample call_sample
                  repr_sample text)
       = Return (PStr s)
    /\ s <> EmptyString
    /\ summary_messages repr_sample "What is the GCD of 144 and 49?"
         (PStr "Result: gcd(144, 49) = 1")
       = [ mkMessage "system" RESPONSE_PROMPT;
           mkMessage "user" (user_input now);
           mkMessage "assistant" ("Tool result: " ++ s);
           mkMessage "user"
             "Now summarize that result naturally in one sentence." ].
Proof.
  refine (proj2 (main_loop_chat_calls EmptyString EmptyString json_loads_session
                   simple_eval_sample call_sample repr_sample session
                   (Chat "llama3.1"
                      (summary_messages repr_sample
                         "What is the GCD of 144 and 49?"
                         (PStr "Result: gcd(144, 49) = 1"))
                      true) _)).
  vm_compute. right. right. right. left. reflexivity.
Defined.

(** X16.  When the reply of the model is not JSON, the pass prints the
    diagnostic of the parser, makes no second call, and the loop goes on
    with the next line. *)
Theorem main_loop_undecodable_reply
  (prompt_head prompt_tail : string)
  (json_loads : string -> Outcome PyVal)
  (simple_eval : PyVal -> Outcome PyVal)
  (call : Callable -> list PyVal -> Outcome PyVal)
  (repr_ext : PyVal -> string)
  (now : Interaction) (later : list Interaction) (text : string) (e : Exn) :
  str_lower (user_input now) <> "exit" ->
  reply now = Return text ->
  json_loads text = Raise e ->
  exn_class e = JSONDecodeError ->
  let loop :=
    main_loop prompt_head prompt_tail json_loads simple_eval call repr_ext in
  loop (now :: later)
  = (Input ask
       :: Chat "llama3.1"
            [ mkMessage "system" (SYSTEM_PROMPT prompt_head prompt_tail);
              mkMessage "user" (user_input now) ] false
       :: Print "Error: Could not decode model response as JSON"
       :: fst (loop later),
     snd (loop later)).
Proof.
  intros Hx Hr Hj Hc loop. unfold loop. cbn [main_loop].
  apply String.eqb_neq in Hx. rewrite Hx, Hr.
  unfold turn. rewrite (parse_response_raise json_loads text e Hj), Hc.
  cbn. destruct (main_loop _ _ _ _ _ _ later). reflexivity.
Qed.

Lemma main_loop_undecodable_reply_witness :
  main_loop EmptyString EmptyString json_loads_session simple_eval_sample
    call_sample repr_sample (skipn 1 session)
  = ([ Input ask;
       Chat "llama3.1"
         [ mkMessage "system" (SYSTEM_PROMPT EmptyString EmptyString);
           mkMessage "user" "hello" ] false;
       Print "Error: Could not decode model response as JSON";
       Input ask ],
     Return tt).
Proof.
  exact (main_loop_undecodable_reply EmptyString EmptyString json_loads_session
           simple_eval_sample call_sample repr_sample
           (mkInteraction "hello" (Return "{tool: calculator") (Return []))
           (skipn 2 session) "{tool: calculator"
           (mkExn JSONDecodeError
              "Expecting property name enclosed in double quotes: line 1 column 2 (char 1)")
           ltac:(discriminate) eq_refl eq_refl eq_refl).
Defined.

(** X17.  A reply that is valid JSON but neither an object nor [null]
    ends the session: after the first call nothing is printed, [TypeError]
    leaves the loop, and no further line is read. *)
Theorem main_loop_reply_not_an_object
  (prompt_head prompt_tail : string)
  (json_loads : string -> Outcome PyVal)
  (simple_eval : PyVal -> Outcome PyVal)
  (call : Callable -> list PyVal -> Outcome PyVal)
  (repr_ext : PyVal -> string)
  (now : Interaction) (later : list Interaction) (text : string) (v : PyVal) :
  str_lower (user_input now) <> "exit" ->
  reply now = Return text ->
  json_loads text = Return v ->
  is_none v = false ->
  is_object v = false ->
  let loop :=
    main_loop prompt_head prompt_tail json_loads simple_eval call repr_ext in
  fst (loop (now :: later))
  = [ Input ask;
      Chat "llama3.1"
        [ mkMessage "system" (SYSTEM_PROMPT prompt_head prompt_tail);
          mkMessage "user" (user_input now) ] false ]
  /\ raises TypeError (snd (loop (now :: later))).
Proof.
  intros Hx Hr Hj Hn Ho loop. unfold loop. cbn [main_loop].
  apply String.eqb_neq in Hx. rewrite Hx, Hr.
  rewrite (turn_decoded json_loads simple_eval call repr_ext text v Hj), Hn.
  destruct (dispatch_not_object simple_eval call repr_ext v Ho) as [Hp Ht].
  destruct (dispatch simple_eval call repr_ext v) as [lines o].
  cbn in Hp, Ht. subst lines. destruct o as [r | e]; [contradiction |].
  split; [reflexivity | exact Ht].
Qed.

Lemma main_loop_reply_not_an_object_witness :
  raises TypeError
    (snd (main_loop EmptyString EmptyString json_loads_session simple_eval_sample
            call_sample repr_sample
            (mkInteraction "7 times 6" (Return "[1, 2]") (Return []) :: session))).
Proof.
  exact (proj2 (main_loop_reply_not_an_object EmptyString EmptyString
                  json_loads_session simple_eval_sample call_sample repr_sample
                  (mkInteraction "7 times 6" (Return "[1, 2]") (Return []))
                  session "[1, 2]" (PList [PInt 1; PInt 2])
                  ltac:(discriminate) eq_refl eq_refl eq_refl eq_refl)).
Defined.

(** X18.  The loop never ends by itself: when no line reads [exit], it
    ends with an exception, that of a pass or the end of the input. *)
Theorem main_loop_needs_exit
  (prompt_head prompt_tail : string)
  (json_loads : string -> Outcome PyVal)
  (simple_eval : PyVal -> Outcome PyVal)
  (call : Callable -> list PyVal -> Outcome PyVal)
  (repr_ext : PyVal -> string) (world : list Interaction) :
  (forall i, In i world -> str_lower (user_input i) <> "exit") ->
  exists e,
    snd (main_loop prompt_head prompt_tail json_loads simple_eval call repr_ext
           world)
    = Raise e.
Proof.
  induction world as [| now later IH]; intros H; cbn [main_loop].
  - eexists. reflexivity.
  - assert (Hx : String.eqb (str_lower (user_input now)) "exit" = false).
    { apply String.eqb_neq, H. left; reflexivity. }
    rewrite Hx.
    destruct (IH (fun i I => H i (or_intror I))) as [e E].
    destruct (reply now) as [text | e']; [| eexists; reflexivity].
    destruct (turn json_loads simple_eval call repr_ext text)
      as [lines [r | e']]; [| eexists; reflexivity].
    destruct (truthy r).
    + destruct (summary now); [| eexists; reflexivity].
      destruct (main_loop _ _ _ _ _ _ later). cbn in *. eauto.
    + destruct (main_loop _ _ _ _ _ _ later). cbn in *. eauto.
Qed.

Lemma main_loop_needs_exit_witness :
  exists e,
    snd (main_loop EmptyString EmptyString json_loads_session simple_eval_sample
           call_sample repr_sample (firstn 2 session))
    = Raise e.
Proof.
  apply (main_loop_needs_exit EmptyString EmptyString json_loads_session
           simple_eval_sample call_sample repr_sample (firstn 2 session)).
  intros i [<- | [<- | []]]; discriminate.
Defined.

(** ** The parser, other exceptions *)

(** X19.  [parse_response] catches [JSONDecodeError] only: an exception
    of any other class raised by the decoder leaves the parser as it is,
    with nothing printed, and so leaves the turn. *)
Theorem parse_response_other_exception
  (json_loads : string -> Outcome PyVal)
  (simple_eval : PyVal -> Outcome PyVal)
  (call : Callable -> list PyVal -> Outcome PyVal)
  (repr_ext : PyVal -> string) (s : string) (e : Exn) :
  json_loads s = Raise e ->
  exn_class e <> JSONDecodeError ->
  parse_response json_loads s = ([], Raise e)
  /\ turn json_loads simple_eval call repr_ext s = ([], Raise e).
Proof.
  intros H Hc.
  assert (P : parse_response json_loads s = ([], Raise e)).
  { rewrite (parse_response_raise json_loads s e H).
    destruct (exn_class e); try reflexivity. contradiction. }
  split; [exact P |]. unfold turn. rewrite P. reflexivity.
Qed.

Lemma parse_response_other_exception_witness :
  parse_response
    (fun _ => Raise (mkExn OtherException "maximum recursion depth exceeded"))
    "[[[[" = ([], Raise (mkExn OtherException "maximum recursion depth exceeded")).
Proof.
  exact (proj1 (parse_response_other_exception
                  (fun _ => Raise (mkExn OtherException
                                     "maximum recursion depth exceeded"))
                  simple_eval_sample call_sample repr_sample "[[[["
                  (mkExn OtherException "maximum recursion depth exceeded")
                  eq_refl ltac:(discriminate))).
Defined.

(** ** The primality test *)

Lemma in_range (a b i : Z) : In i (range a b) <-> (a <= i < b)%Z.
Proof.
  unfold range. rewrite in_map_iff. split.
  - intros (k & <- & Hk). apply in_seq in Hk. lia.
  - intros H. exists (Z.to_nat (i - a)). split; [lia |]. apply in_seq. lia.
Qed.

Lemma is_prime_true (int_root : Z -> Z) (n : Z) :
  is_prime int_root n = true <->
  (1 < n)%Z /\ forall i, (2 <= i <= int_root n)%Z -> (n mod i <> 0)%Z.
Proof.
  unfold is_prime. rewrite andb_true_iff, forallb_forall, Z.ltb_lt.
  split; intros [H1 H2]; split; auto.
  - intros i Hi.
    assert (I : In i (range 2 (int_root n + 1))) by (apply in_range; lia).
    apply H2 in I. apply negb_true_iff, Z.eqb_neq in I. exact I.
  - intros i Hi. apply in_range in Hi.
    apply negb_true_iff, Z.eqb_neq. apply H2. lia.
Qed.

(** X20.  The primality test of the registry is right on every integer for
    which the float computation [int(n ** 0.5)] yields the integer square
    root: it answers true exactly on the primes.  On an integer that is 1 or
    less it answers false whatever that computation would give. *)
Theorem is_prime_correct (int_root : Z -> Z) (n : Z) :
  ((n <= 1)%Z -> is_prime int_root n = false)
  /\ ((0 <= int_root n)%Z ->
      (int_root n * int_root n <= n < (int_root n + 1) * (int_root n + 1))%Z ->
      (is_prime int_root n = true <-> Z.prime n)).
Proof.
  split.
  - intros H. unfold is_prime. destruct (Z.ltb_spec 1 n); [lia | reflexivity].
  - intros Hr Hn. rewrite is_prime_true. unfold Z.prime.
    set (r := int_root n) in *.
    split; intros [H1 H2]; split; auto.
    + intros d Hd [q Hq].
      assert (1 < q < n)%Z by nia.
      destruct (Z_le_gt_dec d r) as [L | G].
      * apply (H2 d); [lia |]. rewrite Hq. apply Z.mod_mul. lia.
      * assert (q <= r)%Z by nia.
        apply (H2 q); [lia |]. rewrite Hq, Z.mul_comm. apply Z.mod_mul. lia.
    + intros i Hi Hm.
      assert (i < n)%Z by nia.
      apply (H2 i); [lia |]. apply Z.mod_divide; [lia | exact Hm].
Qed.

Lemma is_prime_correct_witness :
  is_prime (fun _ => 4%Z) 17 = true <-> Z.prime 17.
Proof.
  apply (proj2 (is_prime_correct (fun _ => 4%Z) 17%Z)); cbn; lia.
Defined.
